(** * messenger: the Cassandra-backed message and conversation models

    A shallow embedding of [app/models/cassandra_models.py]
    ([MessageModel], [ConversationModel]) and of the one line of
    [app/controllers/message_controller.py] that reads a conversation id
    back, followed by the properties of pagination, find-or-create,
    participant normalisation and the denormalised last-message summary. *)

From Stdlib Require Import ZArith NArith String List Sorting.Sorted Permutation Lia.
From stdpp Require Import base option list gmap sorting.

Open Scope Z_scope.

(** ** Stable descending insertion sort on a key *)

Section sort_desc.
Context {A : Type} (key : A -> N).

(** [x] goes in front of the first element whose key is not larger, so
    it stays ahead of the elements of equal key that came after it. *)
Fixpoint insert_desc (x : A) (l : list A) : list A :=
  match l with
  | [] => [x]
  | y :: ys =>
      if (key y <=? key x)%N then x :: y :: ys else y :: insert_desc x ys
  end.

Definition sort_desc (l : list A) : list A := foldr insert_desc [] l.

(** [x] precedes [y] in descending order of key. *)
Definition desc (x y : A) : Prop := (key y <= key x)%N.
End sort_desc.

(** ** Python built-ins used by the models *)

Module Py.

(** [len(l)] is a Python [int]. *)
Definition len {A} (l : list A) : Z := Z.of_nat (length l).

(** Index adjustment of a slice bound against a sequence of length [n]
    (step 1): a negative bound counts from the end and is clamped at 0,
    a bound past the end is clamped at [n]. *)
Definition adjust_index (n i : Z) : Z :=
  if i <? 0 then Z.max (i + n) 0 else Z.min i n.

(** [l[start:stop]]. *)
Definition slice {A} (l : list A) (start stop : Z) : list A :=
  let lo := adjust_index (len l) start in
  let hi := adjust_index (len l) stop in
  take (Z.to_nat (hi - lo)) (drop (Z.to_nat lo) l).

(** [sorted(l)] on integers: ascending. *)
Fixpoint insert_asc (x : Z) (l : list Z) : list Z :=
  match l with
  | [] => [x]
  | y :: ys => if x <=? y then x :: y :: ys else y :: insert_asc x ys
  end.

Definition sorted (l : list Z) : list Z := foldr insert_asc [] l.

(** [l.sort(key=key, reverse=True)]: descending by key and stable, so
    elements with equal keys keep their original relative order. *)
Definition sort_reverse {A} (key : A -> N) (l : list A) : list A :=
  sort_desc key l.

Definition min (a b : Z) : Z := if b <? a then b else a.
Definition max (a b : Z) : Z := if b >? a then b else a.

(** Exceptions raised by the modelled code: the bare [Exception(msg)]
    of [get_conversation] and the [ValueError] of a tuple unpacking of
    the wrong length. *)
Inductive exn : Type :=
| Exception (msg : string)
| ValueError (msg : string).

Inductive result (A : Type) : Type :=
| Ok (a : A)
| Raise (e : exn).
Arguments Ok {A} a.
Arguments Raise {A} e.

End Py.

Export Py(exn(..), result(..)).

(** ** Values *)

(** [uuid.UUID]: a 128-bit token. *)
Definition UUID : Type := N.

(** [datetime.datetime] (naive UTC): microseconds since [datetime.min]. *)
Definition datetime : Type := N.
Definition datetime_min : datetime := 0%N.

(** ** Rows and response dictionaries

    A row is the dictionary the driver hands back for one table row; the
    fields are the keys the models read. *)

Module MsgRow.
Record t : Type := mk {
  conversation_id : UUID;
  sent_at : datetime;
  message_id : UUID;
  sender_id : Z;
  receiver_id : Z;
  content : string }.
End MsgRow.

Module ConvRow.
Record t : Type := mk {
  conversation_id : UUID;
  list_of_users : list Z;
  created_at : option datetime;
  last_message_at : option datetime;
  last_message_content : option string }.
End ConvRow.

(** The non-key columns of a [conversations] row. *)
Module ConvCols.
Record t : Type := mk {
  list_of_users : list Z;
  created_at : option datetime;
  last_message_at : option datetime;
  last_message_content : option string }.

Definition row (k : UUID) (c : t) : ConvRow.t :=
  ConvRow.mk k (list_of_users c) (created_at c) (last_message_at c)
             (last_message_content c).
End ConvCols.

(** What [create_message] returns and what the two message listings put
    in [data] (keyword arguments of [MessageResponse], keys of the dict). *)
Module MessageResponse.
Record t : Type := mk {
  id : UUID;
  created_at : datetime;
  sender_id : Z;
  receiver_id : Z;
  content : string;
  conversation_id : UUID }.
End MessageResponse.

(** The dict of [get_conversation] and of each item of
    [get_user_conversations]. *)
Module ConversationDict.
Record t : Type := mk {
  id : UUID;
  user1_id : option Z;
  user2_id : option Z;
  last_message_at : option datetime;
  last_message_content : option string }.
End ConversationDict.

(** The dict built by the create branch of [create_or_get_conversation]. *)
Module NewConversationDict.
Record t : Type := mk {
  id : UUID;
  user1_id : Z;
  user2_id : Z;
  created_at : datetime;
  last_message_at : datetime;
  last_message_content : option string;
  list_of_users : list Z }.
End NewConversationDict.

(** The paginated envelope [{"total", "page", "limit", "data"}]. *)
Module Page.
Record t (A : Type) : Type := mk {
  total : Z;
  page : Z;
  limit : Z;
  data : list A }.
Arguments mk {A} _ _ _ _.
Arguments total {A} _.
Arguments page {A} _.
Arguments limit {A} _.
Arguments data {A} _.
End Page.

(** ** The world: both tables, the clock and the source of random ids *)

Record World : Type := mkWorld {
  conversations : gmap UUID ConvCols.t;
  messages_by_conversation : list MsgRow.t;
  utcnow_src : nat -> datetime;
  uuid4_src : nat -> UUID;
  drawn : nat }.

(** ** State and exception monad *)

Definition M (A : Type) : Type := World -> result A * World.

Definition ret {A} (a : A) : M A := fun w => (Ok a, w).

Definition bind {A B} (m : M A) (k : A -> M B) : M B :=
  fun w =>
    match m w with
    | (Ok a, w') => k a w'
    | (Raise e, w') => (Raise e, w')
    end.

Definition raise {A} (e : exn) : M A := fun w => (Raise e, w).

Definition lift {A} (r : result A) : M A := fun w => (r, w).

Declare Scope m_scope.
Delimit Scope m_scope with m.
Notation "x <- c1 ;; c2" := (bind c1 (fun x => c2))
  (at level 100, c1 at next level, right associativity) : m_scope.
Notation "c1 ;;; c2" := (bind c1 (fun _ => c2))
  (at level 100, right associativity) : m_scope.

(** [for x in l: acc.append(f(x))]. *)
Fixpoint for_each {A B} (f : A -> M B) (l : list A) : M (list B) :=
  match l with
  | [] => ret []
  | x :: xs =>
      (y <- f x ;; ys <- for_each f xs ;; ret (y :: ys))%m
  end.

(** [datetime.utcnow()] and [uuid.uuid4()]: the next value of the source. *)
Definition with_drawn (n : nat) (w : World) : World :=
  mkWorld (conversations w) (messages_by_conversation w)
          (utcnow_src w) (uuid4_src w) n.

Definition datetime_utcnow : M datetime :=
  fun w => (Ok (utcnow_src w (drawn w)), with_drawn (S (drawn w)) w).

Definition uuid_uuid4 : M UUID :=
  fun w => (Ok (uuid4_src w (drawn w)), with_drawn (S (drawn w)) w).

(** ** The storage collaborator *)

Module cassandra_client.

(** Modelled from the spec: [cassandra_client.execute] lives in
    [app/db/cassandra_client.py], which is not among the sources, and the
    table schema is not either.  Per the spec the collaborator offers
    [execute(query, params) -> list of rows] over two tables:
    [conversations], keyed by conversation id, and
    [messages_by_conversation], keyed by conversation id and clustered by
    sent time, whose messages are retrievable in descending [created_at]
    order.  One function per query text of the models follows. *)
Definition rows_of_conversations (w : World) : list ConvRow.t :=
  (fun kc => ConvCols.row (fst kc) (snd kc)) <$> map_to_list (conversations w).

(** Modelled from the spec: the clustering of a partition of
    [messages_by_conversation], descending by [sent_at]. *)
Definition clustered (rows : list MsgRow.t) : list MsgRow.t :=
  sort_desc MsgRow.sent_at rows.

Definition with_conversations (c : gmap UUID ConvCols.t) (w : World) : World :=
  mkWorld c (messages_by_conversation w) (utcnow_src w) (uuid4_src w) (drawn w).

Definition with_messages (ms : list MsgRow.t) (w : World) : World :=
  mkWorld (conversations w) ms (utcnow_src w) (uuid4_src w) (drawn w).

(** Modelled from the spec: [INSERT INTO messages_by_conversation
    (conversation_id, sent_at, message_id, sender_id, receiver_id, content)],
    an append to the log of messages; no row is returned. *)
Definition insert_message (row : MsgRow.t) : M unit :=
  fun w => (Ok tt, with_messages (messages_by_conversation w ++ [row]) w).

(** Modelled from the spec: [UPDATE conversations SET last_message_content,
    last_message_at WHERE conversation_id], which overwrites both fields of
    that conversation with the given values. *)
Definition update_last_message
    (content : string) (at_ : datetime) (conversation_id : UUID) : M unit :=
  fun w =>
    (Ok tt,
     with_conversations
       (alter (fun c => ConvCols.mk (ConvCols.list_of_users c)
                                    (ConvCols.created_at c)
                                    (Some at_) (Some content))
              conversation_id (conversations w)) w).

(** Modelled from the spec: [SELECT * FROM messages_by_conversation WHERE
    conversation_id = %s], the partition in clustering order. *)
Definition select_messages (conversation_id : UUID) : M (list MsgRow.t) :=
  fun w =>
    (Ok (clustered
           (filter (fun r => MsgRow.conversation_id r = conversation_id)
                   (messages_by_conversation w))), w).

(** Modelled from the spec: [... WHERE conversation_id = %s AND sent_at < %s]. *)
Definition select_messages_before
    (conversation_id : UUID) (before_timestamp : datetime) : M (list MsgRow.t) :=
  fun w =>
    (Ok (clustered
           (filter (fun r => MsgRow.conversation_id r = conversation_id
                             /\ (MsgRow.sent_at r < before_timestamp)%N)
                   (messages_by_conversation w))), w).

(** Modelled from the spec: [SELECT * FROM conversations WHERE list_of_users
    CONTAINS %s ALLOW FILTERING], the membership test over every row. *)
Definition select_conversations_containing (user_id : Z) : M (list ConvRow.t) :=
  fun w =>
    (Ok (filter (fun r => user_id ∈ ConvRow.list_of_users r)
                (rows_of_conversations w)), w).

(** Modelled from the spec: [SELECT * FROM conversations WHERE
    conversation_id = %s], the exact lookup by key. *)
Definition select_conversation (conversation_id : UUID) : M (list ConvRow.t) :=
  fun w =>
    (Ok (match conversations w !! conversation_id with
         | Some c => [ConvCols.row conversation_id c]
         | None => []
         end), w).

(** Modelled from the spec: [INSERT INTO conversations (conversation_id,
    list_of_users, created_at, last_message_at)], which persists the new
    conversation under its id with no last message content. *)
Definition insert_conversation
    (conversation_id : UUID) (users : list Z)
    (created_at last_message_at : datetime) : M unit :=
  fun w =>
    (Ok tt,
     with_conversations
       (<[conversation_id :=
            ConvCols.mk users (Some created_at) (Some last_message_at) None]>
          (conversations w)) w).

End cassandra_client.

(** ** app/models/cassandra_models.py *)

Open Scope m_scope.

Module MessageModel.

Definition create_message
    (conversation_id : UUID) (sender_id receiver_id : Z) (content : string)
  : M MessageResponse.t :=
  created_at <- datetime_utcnow ;;
  message_id <- uuid_uuid4 ;;
  cassandra_client.insert_message
    (MsgRow.mk conversation_id created_at message_id
               sender_id receiver_id content) ;;;
  cassandra_client.update_last_message content created_at conversation_id ;;;
  ret {| MessageResponse.id := message_id;
         MessageResponse.sender_id := sender_id;
         MessageResponse.receiver_id := receiver_id;
         MessageResponse.content := content;
         MessageResponse.created_at := created_at;
         MessageResponse.conversation_id := conversation_id |}.

(** The comprehension over [paginated_results], shared by both listings. *)
Definition response_of_row (msg : MsgRow.t) : MessageResponse.t :=
  {| MessageResponse.id := MsgRow.message_id msg;
     MessageResponse.created_at := MsgRow.sent_at msg;
     MessageResponse.sender_id := MsgRow.sender_id msg;
     MessageResponse.receiver_id := MsgRow.receiver_id msg;
     MessageResponse.content := MsgRow.content msg;
     MessageResponse.conversation_id := MsgRow.conversation_id msg |}.

Definition get_conversation_messages
    (conversation_id : UUID) (page limit : Z)
  : M (Page.t MessageResponse.t) :=
  results <- cassandra_client.select_messages conversation_id ;;
  let total := Py.len results in
  let start := (page - 1) * limit in
  let paginated_results := Py.slice results start (start + limit) in
  let data := response_of_row <$> paginated_results in
  ret (Page.mk total page limit data).

Definition get_messages_before_timestamp
    (conversation_id : UUID) (before_timestamp : datetime) (page limit : Z)
  : M (Page.t MessageResponse.t) :=
  results <- cassandra_client.select_messages_before
               conversation_id before_timestamp ;;
  let total := Py.len results in
  let start := (page - 1) * limit in
  let paginated_results := Py.slice results start (start + limit) in
  let data := response_of_row <$> paginated_results in
  ret (Page.mk total page limit data).

End MessageModel.

Module ConversationModel.

(** The [if len(users) >= 2 / elif len(users) == 1 / else] block that both
    [get_user_conversations] and [get_conversation] run on
    [conv.get("list_of_users", [])]; [user1, user2 = sorted(users)[:2]]
    unpacks a slice, which raises [ValueError] unless it has two items. *)
Definition user_pair (users : list Z) : result (option Z * option Z) :=
  match users with
  | [] => Ok (None, None)
  | [u] => Ok (Some u, Some u)
  | _ =>
      match Py.slice (Py.sorted users) 0 2 with
      | [user1; user2] => Ok (Some user1, Some user2)
      | _ => Raise (ValueError "wrong number of values to unpack")
      end
  end.

(** [x.get("last_message_at") or datetime.min]. *)
Definition sort_key (x : ConvRow.t) : datetime :=
  match ConvRow.last_message_at x with
  | Some t => t
  | None => datetime_min
  end.

Definition conversation_dict (conv : ConvRow.t) : M ConversationDict.t :=
  users <- lift (user_pair (ConvRow.list_of_users conv)) ;;
  ret {| ConversationDict.id := ConvRow.conversation_id conv;
         ConversationDict.user1_id := fst users;
         ConversationDict.user2_id := snd users;
         ConversationDict.last_message_at := ConvRow.last_message_at conv;
         ConversationDict.last_message_content :=
           ConvRow.last_message_content conv |}.

Definition get_user_conversations (user_id : Z) (page limit : Z)
  : M (Page.t ConversationDict.t) :=
  results <- cassandra_client.select_conversations_containing user_id ;;
  let results := Py.sort_reverse sort_key results in
  let total := Py.len results in
  let start := (page - 1) * limit in
  let data := Py.slice results start (start + limit) in
  conv_list <- for_each conversation_dict data ;;
  ret (Page.mk total page limit conv_list).

Definition get_conversation (conversation_id : UUID) : M ConversationDict.t :=
  results <- cassandra_client.select_conversation conversation_id ;;
  match results with
  | [] => raise (Exception "Conversation not found")
  | conv :: _ => conversation_dict conv
  end.

(** [create_or_get_conversation] returns either the stored row it found
    ([return conv]) or the dict it builds after the insert. *)
Inductive conversation : Type :=
| StoredRow (conv : ConvRow.t)
| NewDict (d : NewConversationDict.t).

Definition create_or_get_conversation (user1_id user2_id : Z) : M conversation :=
  results <- cassandra_client.select_conversations_containing user1_id ;;
  match find (fun conv => bool_decide (user2_id ∈ ConvRow.list_of_users conv))
             results with
  | Some conv => ret (StoredRow conv)
  | None =>
      conversation_id <- uuid_uuid4 ;;
      created_at <- datetime_utcnow ;;
      cassandra_client.insert_conversation
        conversation_id [user1_id; user2_id] created_at created_at ;;;
      ret (NewDict
             {| NewConversationDict.id := conversation_id;
                NewConversationDict.user1_id := Py.min user1_id user2_id;
                NewConversationDict.user2_id := Py.max user1_id user2_id;
                NewConversationDict.created_at := created_at;
                NewConversationDict.last_message_at := created_at;
                NewConversationDict.last_message_content := None;
                NewConversationDict.list_of_users := [user1_id; user2_id] |})
  end.

(** Keys of the returned dict: [conversation.get(key)] for the keys read
    by callers and by the properties below. *)
Definition get_id (c : conversation) : option UUID :=
  match c with
  | StoredRow _ => None
  | NewDict d => Some (NewConversationDict.id d)
  end.

Definition get_conversation_id (c : conversation) : option UUID :=
  match c with
  | StoredRow conv => Some (ConvRow.conversation_id conv)
  | NewDict _ => None
  end.


Definition get_user_ids (c : conversation) : option (Z * Z) :=
  match c with
  | StoredRow _ => None
  | NewDict d =>
      Some (NewConversationDict.user1_id d, NewConversationDict.user2_id d)
  end.

End ConversationModel.

(** ** app/controllers/message_controller.py *)

Module MessageController.

(** [conversation.get("id") or conversation.get("conversation_id")], the
    way [send_message] reads the id of the conversation it was handed. *)
Definition conversation_id_of (c : ConversationModel.conversation) : option UUID :=
  match ConversationModel.get_id c with
  | Some i => Some i
  | None => ConversationModel.get_conversation_id c
  end.

End MessageController.

(** A world to run examples in: empty tables, a clock that advances by a
    millisecond per reading and ids counted up from 100. *)
Definition world0 : World :=
  mkWorld ∅ [] (fun n => (1000 * N.of_nat n)%N) (fun n => (100 + N.of_nat n)%N) 0.

(** ** Vocabulary of the properties *)

Import MessageModel ConversationModel.

(** The stored messages of one conversation, in log order. *)
Definition messages_of (conversation_id : UUID) (w : World) : list MsgRow.t :=
  filter (fun r => MsgRow.conversation_id r = conversation_id)
         (messages_by_conversation w).

(** The stored messages of one conversation sent strictly before [t]. *)
Definition messages_before (conversation_id : UUID) (t : datetime) (w : World)
  : list MsgRow.t :=
  filter (fun r => (MsgRow.sent_at r < t)%N) (messages_of conversation_id w).

(** The window of a page: [results[start:start + limit]]. *)
Definition window {A} (results : list A) (page limit : Z) : list A :=
  Py.slice results ((page - 1) * limit) ((page - 1) * limit + limit).

(** A sequence of [create_message] calls into one conversation, each call
    given as (sender, receiver, content). *)
Fixpoint append_all (conversation_id : UUID) (calls : list (Z * Z * string))
  : M unit :=
  match calls with
  | [] => ret tt
  | (sender_id, receiver_id, content) :: rest =>
      create_message conversation_id sender_id receiver_id content ;;;
      append_all conversation_id rest
  end.

(** Descending order of [created_at] on the items of a listing. *)
Definition newest_first (a b : MessageResponse.t) : Prop :=
  (MessageResponse.created_at b <= MessageResponse.created_at a)%N.

(** What [conversation_dict] makes of a row. *)
Definition dict_of (conv : ConvRow.t) (d : ConversationDict.t) : Prop :=
  user_pair (ConvRow.list_of_users conv) =
    Ok (ConversationDict.user1_id d, ConversationDict.user2_id d)
  /\ ConversationDict.id d = ConvRow.conversation_id conv
  /\ ConversationDict.last_message_at d = ConvRow.last_message_at conv
  /\ ConversationDict.last_message_content d = ConvRow.last_message_content conv.

(** The stored conversations that contain a user, in table order. *)
Definition conversations_of (user_id : Z) (w : World) : list ConvRow.t :=
  filter (fun r => user_id ∈ ConvRow.list_of_users r)
         (cassandra_client.rows_of_conversations w).

(** The test the search of [create_or_get_conversation] amounts to: the row
    came back from the [CONTAINS a] query and passes [b in list_of_users]. *)
Definition holds_both (a b : Z) (conv : ConvRow.t) : bool :=
  bool_decide (a ∈ ConvRow.list_of_users conv)
  && bool_decide (b ∈ ConvRow.list_of_users conv).


(** Every stored conversation has two entries in [list_of_users], as every
    row written by [create_or_get_conversation] has. *)
Definition two_party (w : World) : Prop :=
  forall k c, conversations w !! k = Some c ->
              length (ConvCols.list_of_users c) = 2%nat.

(** A call is rejected when it raises instead of returning. *)
Definition rejected {A} (m : M A) (w : World) : Prop :=
  exists e, fst (m w) = Raise e.

(** A world with one conversation, created for users 9 and 5, and two
    messages in it. *)
Definition world_chat : World :=
  snd ((create_or_get_conversation 9 5 ;;;
        create_message 100%N 9 5 "hi" ;;;
        create_message 100%N 5 9 "hello") world0).

(** Two stores with one conversation between users 5 and 9 each, created
    with the users in either order. *)
Definition world_5_9 : World := snd (create_or_get_conversation 5 9 world0).
Definition world_9_5 : World := snd (create_or_get_conversation 9 5 world0).

(** The same exchange under a clock that runs backwards, so that the second
    message is stamped earlier than the first. *)
Definition world_backwards : World :=
  snd ((create_or_get_conversation 9 5 ;;;
        create_message 100%N 9 5 "hi")
         (mkWorld ∅ [] (fun n => (9000 - 1000 * N.of_nat n)%N)
                  (fun n => (100 + N.of_nat n)%N) 0)).

(** ** The controllers

    [app/controllers/message_controller.py] and
    [app/controllers/conversation_controller.py].  Every method runs its
    body under [try: ... except Exception as e: raise HTTPException(
    status_code=status.HTTP_500_INTERNAL_SERVER_ERROR, detail=str(e))]. *)

(** [MessageCreate]: the fields [send_message] reads off [message_data]. *)
Module MessageCreate.
Record t : Type := mk {
  sender_id : Z;
  receiver_id : Z;
  content : string }.
End MessageCreate.

(** What a controller method does: it returns, or raises [HTTPException]. *)
Inductive http_result (A : Type) : Type :=
| Returned (a : A)
| HTTPException (status_code : Z) (detail : string).
Arguments Returned {A} a.
Arguments HTTPException {A} status_code detail.

Definition Handler (A : Type) : Type := World -> http_result A * World.

(** [str(e)] of the exceptions of the models: the message. *)
Definition str (e : exn) : string :=
  match e with
  | Exception msg => msg
  | ValueError msg => msg
  end.

Definition HTTP_500_INTERNAL_SERVER_ERROR : Z := 500.

(** The [try]/[except] every controller method is wrapped in. *)
Definition try_except {A} (body : M A) : Handler A :=
  fun w =>
    match body w with
    | (Ok a, w') => (Returned a, w')
    | (Raise e, w') =>
        (HTTPException HTTP_500_INTERNAL_SERVER_ERROR (str e), w')
    end.

Module message_controller.

(** [send_message]: [MessageResponse], called on the unpacked dict of
    [create_message], builds the record, which has exactly its fields.  A dict with
    neither ["id"] nor ["conversation_id"] would hand [None] on as the
    partition key of the insert, which the storage refuses. *)
Definition send_message (message_data : MessageCreate.t) : Handler MessageResponse.t :=
  try_except
    (conversation <- create_or_get_conversation
                       (MessageCreate.sender_id message_data)
                       (MessageCreate.receiver_id message_data) ;;
     match MessageController.conversation_id_of conversation with
     | Some conversation_id =>
         msg <- create_message conversation_id
                  (MessageCreate.sender_id message_data)
                  (MessageCreate.receiver_id message_data)
                  (MessageCreate.content message_data) ;;
         ret msg
     | None => raise (Exception "Invalid null value for partition key")
     end).

Section schemas.
(** [PaginatedMessageResponse], called on the unpacked envelope: the schema
    class is not among the sources, so its constructor, which may refuse
    the envelope, is a parameter. *)
Context {R : Type}
  (PaginatedMessageResponse : Page.t MessageResponse.t -> result R).

Definition get_conversation_messages
    (conversation_id : UUID) (page limit : Z) : Handler R :=
  try_except
    (messages_paginated <-
       MessageModel.get_conversation_messages conversation_id page limit ;;
     lift (PaginatedMessageResponse messages_paginated)).

Definition get_messages_before_timestamp
    (conversation_id : UUID) (before_timestamp : datetime) (page limit : Z)
  : Handler R :=
  try_except
    (messages_paginated <-
       MessageModel.get_messages_before_timestamp
         conversation_id before_timestamp page limit ;;
     lift (PaginatedMessageResponse messages_paginated)).
End schemas.

End message_controller.

Module conversation_controller.

Section schemas.
(** [ConversationResponse] and [PaginatedConversationResponse], called on
    the unpacked dict: the schema classes are not among the sources, so
    their constructors are parameters. *)
Context {R P : Type}
  (ConversationResponse : ConversationDict.t -> result R)
  (PaginatedConversationResponse : Page.t ConversationDict.t -> result P).

Definition get_user_conversations (user_id : Z) (page limit : Z) : Handler P :=
  try_except
    (conv_data <- ConversationModel.get_user_conversations user_id page limit ;;
     lift (PaginatedConversationResponse conv_data)).

Definition get_conversation (conversation_id : UUID) : Handler R :=
  try_except
    (conv <- ConversationModel.get_conversation conversation_id ;;
     lift (ConversationResponse conv)).
End schemas.

End conversation_controller.

(** ** Vocabulary of the further properties *)

(** The [data] of a listing that returned. *)
Definition listed {A} (r : result (Page.t A) * World) : list A :=
  match fst r with
  | Ok env => Page.data env
  | Raise _ => []
  end.

(** Pages [1 .. n] of a result list, one after the other. *)
Definition pages {A} (results : list A) (n : nat) (limit : Z) : list A :=
  concat ((fun p => window results (Z.of_nat p) limit) <$> seq 1 n).

(** Descending order of [last_message_at or datetime.min] on the items of
    [get_user_conversations]. *)
Definition dict_key (d : ConversationDict.t) : datetime :=
  match ConversationDict.last_message_at d with
  | Some t => t
  | None => datetime_min
  end.

Definition latest_first (a b : ConversationDict.t) : Prop :=
  (dict_key b <= dict_key a)%N.

(** No two stored conversations hold the same pair of distinct users. *)
Definition unique_pairs (w : World) : Prop :=
  forall k1 k2 c1 c2 a b,
    a ≠ b ->
    conversations w !! k1 = Some c1 ->
    conversations w !! k2 = Some c2 ->
    a ∈ ConvCols.list_of_users c1 -> b ∈ ConvCols.list_of_users c1 ->
    a ∈ ConvCols.list_of_users c2 -> b ∈ ConvCols.list_of_users c2 ->
    k1 = k2.

(** Every stored message belongs to a stored conversation that has its
    sender and its receiver among the participants. *)
Definition messages_owned (w : World) : Prop :=
  forall m, m ∈ messages_by_conversation w ->
    exists c, conversations w !! MsgRow.conversation_id m = Some c
              /\ MsgRow.sender_id m ∈ ConvCols.list_of_users c
              /\ MsgRow.receiver_id m ∈ ConvCols.list_of_users c.

(** The next value of the id source is not the id of a stored conversation. *)
Definition next_id_fresh (w : World) : Prop :=
  conversations w !! uuid4_src w (drawn w) = None.

(** * Properties *)

(** ** Slices *)

Section slice_facts.
Context {A : Type}.
Implicit Types l : list A.

Lemma slice_sublist l start stop : Py.slice l start stop `sublist_of` l.
Proof.
  unfold Py.slice. etrans; [apply sublist_take | apply sublist_drop].
Qed.

Lemma slice_elem_of l start stop x : x ∈ Py.slice l start stop -> x ∈ l.
Proof. intros Hx. eapply elem_of_sublist; [done | apply slice_sublist]. Qed.

Lemma adjust_index_range n i : 0 <= n -> 0 <= Py.adjust_index n i <= n.
Proof. unfold Py.adjust_index. destruct (Z.ltb_spec i 0); lia. Qed.

(** A window [start, start + limit) with [start >= 0] and [limit > 0]
    holds at most [limit] items. *)
Lemma slice_window_length l start limit :
  0 <= start -> 0 < limit ->
  Py.len (Py.slice l start (start + limit)) <= limit.
Proof.
  intros Hs Hl. unfold Py.slice, Py.len, Py.adjust_index.
  rewrite length_take.
  destruct (Z.ltb_spec start 0), (Z.ltb_spec (start + limit) 0); lia.
Qed.

(** A window that starts at or past the end is empty. *)
Lemma slice_past_end l start stop :
  Py.len l <= start -> Py.slice l start stop = [].
Proof.
  intros Hs. unfold Py.slice.
  assert (0 <= Py.len l) by (unfold Py.len; lia).
  assert (Py.adjust_index (Py.len l) start = Py.len l) as ->.
  { unfold Py.adjust_index. destruct (Z.ltb_spec start 0); lia. }
  pose proof (adjust_index_range (Py.len l) stop).
  replace (Z.to_nat (Py.adjust_index (Py.len l) stop - Py.len l)) with 0%nat
    by lia.
  apply take_0.
Qed.

(** [l[-limit:0]] is empty: the stop bound 0 is never past the start. *)
Lemma slice_page_zero l limit :
  0 < limit -> Py.slice l ((0 - 1) * limit) ((0 - 1) * limit + limit) = [].
Proof.
  intros Hl. unfold Py.slice.
  assert (0 <= Py.len l) by (unfold Py.len; lia).
  pose proof (adjust_index_range (Py.len l) ((0 - 1) * limit)).
  replace ((0 - 1) * limit + limit) with 0 by lia.
  assert (Py.adjust_index (Py.len l) 0 = 0) as ->.
  { unfold Py.adjust_index. simpl. lia. }
  replace (Z.to_nat (0 - Py.adjust_index (Py.len l) ((0 - 1) * limit)))
    with 0%nat by lia.
  apply take_0.
Qed.
End slice_facts.

(** ** Sorting *)

Lemma StronglySorted_sublist {A} (R : relation A) (l k : list A) :
  l `sublist_of` k -> StronglySorted R k -> StronglySorted R l.
Proof.
  induction 1 as [|x l k Hsub IH|x l k Hsub IH]; intros Hk.
  - constructor.
  - apply StronglySorted_cons in Hk as [Hx Hk].
    apply StronglySorted_cons. split; [|by apply IH].
    rewrite Forall_forall in Hx |- *. intros y Hy.
    apply Hx. by eapply elem_of_sublist.
  - apply StronglySorted_cons in Hk as [_ Hk]. by apply IH.
Qed.

Section sort_desc_facts.
Context {A : Type} (key : A -> N).

Lemma insert_desc_Permutation x l : insert_desc key x l ≡ₚ x :: l.
Proof.
  induction l as [|y ys IH]; simpl; [done|].
  destruct (key y <=? key x)%N; [done|].
  by rewrite IH, Permutation_swap.
Qed.

Lemma sort_desc_Permutation l : sort_desc key l ≡ₚ l.
Proof.
  induction l as [|x l IH]; simpl; [done|].
  by rewrite insert_desc_Permutation, IH.
Qed.

Lemma length_sort_desc l : length (sort_desc key l) = length l.
Proof. by rewrite sort_desc_Permutation. Qed.

Lemma elem_of_sort_desc l x : x ∈ sort_desc key l <-> x ∈ l.
Proof. by rewrite sort_desc_Permutation. Qed.

Lemma insert_desc_sorted x l :
  StronglySorted (desc key) l -> StronglySorted (desc key) (insert_desc key x l).
Proof.
  induction 1 as [|y ys Hys IH Hy]; simpl.
  - repeat constructor.
  - destruct (N.leb_spec (key y) (key x)) as [Hle|Hlt].
    + constructor; [by constructor|].
      constructor; [done|].
      eapply Forall_impl; [exact Hy|]. unfold desc. intros z Hz. lia.
    + constructor; [done|].
      rewrite insert_desc_Permutation.
      constructor; [unfold desc; lia | done].
Qed.

Lemma sort_desc_sorted l : StronglySorted (desc key) (sort_desc key l).
Proof.
  induction l as [|x l IH]; simpl; [constructor|].
  by apply insert_desc_sorted.
Qed.
End sort_desc_facts.

(** ** Running the message listings *)

Lemma get_conversation_messages_run conversation_id page limit w :
  get_conversation_messages conversation_id page limit w =
    (Ok (Page.mk
           (Py.len (messages_of conversation_id w)) page limit
           (response_of_row <$>
                (window (cassandra_client.clustered (messages_of conversation_id w))
                        page limit))), w).
Proof.
  unfold get_conversation_messages, bind, cassandra_client.select_messages, ret.
  simpl. unfold Py.len at 1, cassandra_client.clustered.
  by rewrite length_sort_desc.
Qed.

Lemma filter_filter_and {A} (P Q : A -> Prop)
    `{!forall x, Decision (P x)} `{!forall x, Decision (Q x)} (l : list A) :
  filter Q (filter P l) = filter (fun x => P x /\ Q x) l.
Proof.
  induction l as [|x l IH]; [done|].
  rewrite !filter_cons.
  destruct (decide (P x)) as [HP|HP].
  - rewrite filter_cons. destruct (decide (Q x)) as [HQ|HQ].
    + rewrite decide_True by done. by rewrite IH.
    + rewrite decide_False by tauto. done.
  - rewrite decide_False by tauto. done.
Qed.

Lemma get_messages_before_timestamp_run conversation_id t page limit w :
  get_messages_before_timestamp conversation_id t page limit w =
    (Ok (Page.mk
           (Py.len (messages_before conversation_id t w)) page limit
           (response_of_row <$>
                (window (cassandra_client.clustered
                           (messages_before conversation_id t w))
                        page limit))), w).
Proof.
  unfold get_messages_before_timestamp, bind,
    cassandra_client.select_messages_before, ret.
  simpl. unfold Py.len at 1, cassandra_client.clustered.
  rewrite length_sort_desc.
  unfold messages_before, messages_of. by rewrite filter_filter_and.
Qed.

(** Any run of [create_message] returns the message and leaves a world. *)
Lemma create_message_run conversation_id sender_id receiver_id content w :
  exists w',
    create_message conversation_id sender_id receiver_id content w =
      (Ok (MessageResponse.mk (uuid4_src w (S (drawn w)))
                              (utcnow_src w (drawn w))
                              sender_id receiver_id content conversation_id),
       w')
    /\ conversations w' =
         alter (fun c => ConvCols.mk (ConvCols.list_of_users c)
                                     (ConvCols.created_at c)
                                     (Some (utcnow_src w (drawn w)))
                                     (Some content))
               conversation_id (conversations w)
    /\ messages_by_conversation w' =
         messages_by_conversation w ++
           [MsgRow.mk conversation_id (utcnow_src w (drawn w))
                      (uuid4_src w (S (drawn w)))
                      sender_id receiver_id content].
Proof. eexists. split; [reflexivity|]. split; reflexivity. Qed.

Lemma append_all_run conversation_id calls w :
  exists w', append_all conversation_id calls w = (Ok tt, w').
Proof.
  revert w. induction calls as [|[[s r] c] rest IH]; intros w; simpl.
  - by eexists.
  - unfold bind at 1.
    destruct (create_message_run conversation_id s r c w) as (w1 & -> & _).
    apply IH.
Qed.

Lemma listing_newest_first (rows : list MsgRow.t) page limit :
  StronglySorted newest_first
    (response_of_row <$> window (cassandra_client.clustered rows) page limit).
Proof.
  apply (StronglySorted_fmap _ (desc MsgRow.sent_at)); [done|].
  eapply StronglySorted_sublist; [apply slice_sublist|].
  apply sort_desc_sorted.
Qed.

Lemma window_length {A} (results : list A) page limit :
  0 < page -> 0 < limit -> Py.len (window results page limit) <= limit.
Proof. intros Hp Hl. apply slice_window_length; nia. Qed.

(** C1: for every conversation and every positive page and limit, after any
    sequence of [create_message] calls into the conversation, run from any
    world, [get_conversation_messages] returns a page whose [data] is in
    non-increasing order of [created_at] (every item is at least as recent as
    every later one) and holds at most [limit] items. *)
Theorem listing_sorted_and_bounded
    (w0 : World) (conversation_id : UUID) (calls : list (Z * Z * string))
    (page limit : Z) :
  0 < page -> 0 < limit ->
  exists env w,
    (append_all conversation_id calls ;;;
     get_conversation_messages conversation_id page limit) w0 = (Ok env, w)
    /\ StronglySorted newest_first (Page.data env)
    /\ Py.len (Page.data env) <= limit.
Proof.
  intros Hp Hl.
  destruct (append_all_run conversation_id calls w0) as [w Hw].
  eexists _, w. unfold bind. rewrite Hw.
  split; [apply get_conversation_messages_run|]. simpl. split.
  - apply listing_newest_first.
  - unfold Py.len. rewrite length_fmap. by apply window_length.
Qed.

Lemma listing_sorted_and_bounded_witness :
  exists env w,
    (append_all 100%N [(9, 5, "hi"%string); (5, 9, "hello"%string)] ;;;
     get_conversation_messages 100%N 1 20) world_9_5 = (Ok env, w)
    /\ StronglySorted newest_first (Page.data env)
    /\ Py.len (Page.data env) <= 20.
Proof.
  apply (listing_sorted_and_bounded world_9_5 100%N
           [(9, 5, "hi"%string); (5, 9, "hello"%string)] 1 20); lia.
Defined.

(** End-to-end scenario 1 of the spec: "hi" then "hello" are listed as
    "hello", "hi", with [total = 2]. *)
Example listing_hello_then_hi :
  fst ((append_all 100%N [(9, 5, "hi"%string); (5, 9, "hello"%string)] ;;;
        get_conversation_messages 100%N 1 20) world_9_5) =
    Ok (Page.mk 2 1 20
          [MessageResponse.mk 105%N 4000%N 5 9 "hello" 100%N;
           MessageResponse.mk 103%N 2000%N 9 5 "hi" 100%N]).
Proof. reflexivity. Qed.

(** ** Running the conversation reads *)

Lemma insert_asc_Permutation x l : Py.insert_asc x l ≡ₚ x :: l.
Proof.
  induction l as [|y ys IH]; simpl; [done|].
  destruct (x <=? y); [done|]. by rewrite IH, Permutation_swap.
Qed.

Lemma sorted_Permutation l : Py.sorted l ≡ₚ l.
Proof.
  induction l as [|x l IH]; simpl; [done|].
  by rewrite insert_asc_Permutation, IH.
Qed.

Lemma slice_first_two {A} (a b : A) (rest : list A) :
  Py.slice (a :: b :: rest) 0 2 = [a; b].
Proof.
  unfold Py.slice, Py.adjust_index, Py.len. simpl length.
  replace (Z.min 0 (Z.of_nat (S (S (length rest))))) with 0 by lia.
  replace (Z.min 2 (Z.of_nat (S (S (length rest))))) with 2 by lia.
  reflexivity.
Qed.

(** The unpacking in [user_pair] never fails: the guard [len(users) >= 2]
    leaves two items in [sorted(users)[:2]]. *)
Lemma user_pair_total users : exists p, user_pair users = Ok p.
Proof.
  destruct users as [|u [|v rest]]; [by eexists..|].
  pose proof (Permutation_length (sorted_Permutation (u :: v :: rest))) as Hlen.
  unfold user_pair.
  destruct (Py.sorted (u :: v :: rest)) as [|a [|b tl]]; [done..|].
  rewrite slice_first_two. by eexists.
Qed.

Lemma py_min_max a b : Py.min a b = Z.min a b /\ Py.max a b = Z.max a b.
Proof.
  unfold Py.min, Py.max.
  destruct (Z.ltb_spec b a), (Z.gtb_spec b a); lia.
Qed.

(** Two stored participants come out as (min, max). *)
Lemma user_pair_two a b :
  user_pair [a; b] = Ok (Some (Z.min a b), Some (Z.max a b)).
Proof.
  unfold user_pair, Py.sorted. simpl.
  destruct (Z.leb_spec a b); rewrite slice_first_two; do 3 f_equal; lia.
Qed.

Lemma conversation_dict_run conv w :
  exists d, conversation_dict conv w = (Ok d, w) /\ dict_of conv d.
Proof.
  unfold conversation_dict, bind, lift, ret, dict_of.
  destruct (user_pair_total (ConvRow.list_of_users conv)) as [[u1 u2] ->].
  eexists. split; [reflexivity|]. simpl. done.
Qed.

Lemma for_each_run {A B} (f : A -> M B) (R : A -> B -> Prop) l w :
  (forall x, exists y, f x w = (Ok y, w) /\ R x y) ->
  exists ys, for_each f l w = (Ok ys, w) /\ Forall2 R l ys.
Proof.
  intros Hf. induction l as [|x l (ys & IH & HR)]; simpl.
  - exists []. split; [done | constructor].
  - destruct (Hf x) as (y & Hy & Hxy).
    exists (y :: ys). unfold bind at 1. rewrite Hy.
    unfold bind at 1. rewrite IH. split; [done | by constructor].
Qed.

Lemma get_user_conversations_run user_id page limit w :
  exists conv_list,
    get_user_conversations user_id page limit w =
      (Ok (Page.mk (Py.len (conversations_of user_id w)) page limit conv_list), w)
    /\ Forall2 dict_of
         (window (Py.sort_reverse sort_key (conversations_of user_id w))
                 page limit)
         conv_list.
Proof.
  unfold get_user_conversations, bind at 1,
    cassandra_client.select_conversations_containing.
  fold (conversations_of user_id w).
  destruct (for_each_run conversation_dict dict_of
              (window (Py.sort_reverse sort_key (conversations_of user_id w))
                      page limit) w) as (ys & Hys & HR).
  { intros conv. apply conversation_dict_run. }
  exists ys. split; [|done].
  unfold bind, window in *. rewrite Hys. unfold ret.
  unfold Py.len at 1, Py.sort_reverse. by rewrite length_sort_desc.
Qed.

Lemma get_conversation_missing conversation_id w :
  conversations w !! conversation_id = None ->
  get_conversation conversation_id w =
    (Raise (Exception "Conversation not found"), w).
Proof.
  intros Hnone.
  unfold get_conversation, bind, cassandra_client.select_conversation, raise.
  by rewrite Hnone.
Qed.

Lemma get_conversation_stored conversation_id c w :
  conversations w !! conversation_id = Some c ->
  exists d,
    get_conversation conversation_id w = (Ok d, w)
    /\ dict_of (ConvCols.row conversation_id c) d.
Proof.
  intros Hsome.
  unfold get_conversation, bind, cassandra_client.select_conversation.
  rewrite Hsome. apply conversation_dict_run.
Qed.

(** ** Pagination *)

Lemma window_past_end {A} (results : list A) page limit :
  Py.len results <= (page - 1) * limit -> window results page limit = [].
Proof. intros Hle. by apply slice_past_end. Qed.

Lemma len_clustered rows : Py.len (cassandra_client.clustered rows) = Py.len rows.
Proof.
  unfold Py.len, cassandra_client.clustered. by rewrite length_sort_desc.
Qed.

Lemma len_sort_reverse {A} (key : A -> N) l :
  Py.len (Py.sort_reverse key l) = Py.len l.
Proof. unfold Py.len, Py.sort_reverse. by rewrite length_sort_desc. Qed.

(** C7: for positive [page] and [limit], [total] of
    [get_conversation_messages] is the number of stored messages of the
    conversation and [total] of [get_user_conversations] is the number of
    stored conversations containing the user, whatever [page] and [limit]
    are; and when [(page - 1) * limit] is at or beyond that count, [data] is
    empty. *)
Theorem total_is_full_count
    (w : World) (conversation_id : UUID) (user_id : Z) (page limit : Z) :
  0 < page -> 0 < limit ->
  (exists env,
      get_conversation_messages conversation_id page limit w = (Ok env, w)
      /\ Page.total env = Py.len (messages_of conversation_id w)
      /\ (Py.len (messages_of conversation_id w) <= (page - 1) * limit ->
          Page.data env = []))
  /\ (exists env,
      get_user_conversations user_id page limit w = (Ok env, w)
      /\ Page.total env = Py.len (conversations_of user_id w)
      /\ (Py.len (conversations_of user_id w) <= (page - 1) * limit ->
          Page.data env = [])).
Proof.
  intros _ _. split.
  - eexists. split; [apply get_conversation_messages_run|]. simpl.
    split; [done|]. intros Hle.
    rewrite window_past_end; [done|]. by rewrite len_clustered.
  - destruct (get_user_conversations_run user_id page limit w)
      as (conv_list & Hrun & Hdata).
    eexists. split; [exact Hrun|]. simpl. split; [done|]. intros Hle.
    rewrite window_past_end in Hdata by (by rewrite len_sort_reverse).
    by apply Forall2_nil_inv_l in Hdata.
Qed.

(** C10: with [page = 0] and a positive [limit] none of the three listings
    raises; the slice is [results[-limit:0]], so [data] is empty, while
    [total] is still the full matching count and the envelope carries
    [page = 0] and the given [limit]. *)
Theorem page_zero_is_empty
    (w : World) (conversation_id : UUID) (before_timestamp : datetime)
    (user_id : Z) (limit : Z) :
  0 < limit ->
  get_conversation_messages conversation_id 0 limit w =
    (Ok (Page.mk (Py.len (messages_of conversation_id w)) 0 limit []), w)
  /\ get_messages_before_timestamp conversation_id before_timestamp 0 limit w =
    (Ok (Page.mk (Py.len (messages_before conversation_id before_timestamp w))
                 0 limit []), w)
  /\ get_user_conversations user_id 0 limit w =
    (Ok (Page.mk (Py.len (conversations_of user_id w)) 0 limit []), w).
Proof.
  intros Hl. repeat split.
  - rewrite get_conversation_messages_run. unfold window.
    by rewrite slice_page_zero.
  - rewrite get_messages_before_timestamp_run. unfold window.
    by rewrite slice_page_zero.
  - destruct (get_user_conversations_run user_id 0 limit w)
      as (conv_list & -> & Hdata).
    unfold window in Hdata. rewrite slice_page_zero in Hdata by done.
    by apply Forall2_nil_inv_l in Hdata as ->.
Qed.

Lemma page_zero_is_empty_witness :
  get_conversation_messages 100%N 0 20 world_chat =
    (Ok (Page.mk (Py.len (messages_of 100%N world_chat)) 0 20 []), world_chat)
  /\ get_messages_before_timestamp 100%N 5000%N 0 20 world_chat =
    (Ok (Page.mk (Py.len (messages_before 100%N 5000%N world_chat)) 0 20 []),
     world_chat)
  /\ get_user_conversations 5 0 20 world_chat =
    (Ok (Page.mk (Py.len (conversations_of 5 world_chat)) 0 20 []), world_chat).
Proof. apply (page_zero_is_empty world_chat 100%N 5000%N 5 20). lia. Defined.

Lemma total_is_full_count_witness :
  (exists env,
      get_conversation_messages 100%N 3 1 world_chat = (Ok env, world_chat)
      /\ Page.total env = Py.len (messages_of 100%N world_chat)
      /\ (Py.len (messages_of 100%N world_chat) <= (3 - 1) * 1 ->
          Page.data env = []))
  /\ (exists env,
      get_user_conversations 5 3 1 world_chat = (Ok env, world_chat)
      /\ Page.total env = Py.len (conversations_of 5 world_chat)
      /\ (Py.len (conversations_of 5 world_chat) <= (3 - 1) * 1 ->
          Page.data env = [])).
Proof. apply (total_is_full_count world_chat 100%N 5 3 1); lia. Defined.

(** On [world_chat]: two messages in all, one conversation for user 5, and
    nothing on the page past the end. *)
Example total_past_the_end :
  fst (get_conversation_messages 100%N 3 1 world_chat) = Ok (Page.mk 2 3 1 [])
  /\ fst (get_user_conversations 5 2 1 world_chat) = Ok (Page.mk 1 2 1 []).
Proof. split; reflexivity. Qed.

(** C5, as the code has it: with [limit <= 0] or [page <= 0] none of the
    three listings raises.  Each returns the envelope with [total] the full
    matching count, [page] and [limit] as given, and [data] taken from the
    Python slice [results[(page-1)*limit : (page-1)*limit + limit]] of the
    result list, negative bounds counting from the end. *)
Theorem nonpositive_arguments_are_sliced
    (w : World) (conversation_id : UUID) (before_timestamp : datetime)
    (user_id : Z) (page limit : Z) :
  limit <= 0 \/ page <= 0 ->
  get_conversation_messages conversation_id page limit w =
    (Ok (Page.mk
           (Py.len (messages_of conversation_id w)) page limit
           (response_of_row <$>
              Py.slice (cassandra_client.clustered (messages_of conversation_id w))
                       ((page - 1) * limit) ((page - 1) * limit + limit))), w)
  /\ get_messages_before_timestamp conversation_id before_timestamp page limit w =
    (Ok (Page.mk
           (Py.len (messages_before conversation_id before_timestamp w))
           page limit
           (response_of_row <$>
              Py.slice (cassandra_client.clustered
                          (messages_before conversation_id before_timestamp w))
                       ((page - 1) * limit) ((page - 1) * limit + limit))), w)
  /\ exists conv_list,
      get_user_conversations user_id page limit w =
        (Ok (Page.mk (Py.len (conversations_of user_id w)) page limit conv_list),
         w)
      /\ Forall2 dict_of
           (Py.slice (Py.sort_reverse sort_key (conversations_of user_id w))
                     ((page - 1) * limit) ((page - 1) * limit + limit))
           conv_list.
Proof.
  intros _. split; [|split].
  - apply get_conversation_messages_run.
  - apply get_messages_before_timestamp_run.
  - apply get_user_conversations_run.
Qed.

Lemma nonpositive_arguments_are_sliced_witness :
  get_conversation_messages 100%N 1 (-1) world_chat =
    (Ok (Page.mk
           (Py.len (messages_of 100%N world_chat)) 1 (-1)
           (response_of_row <$>
              Py.slice (cassandra_client.clustered (messages_of 100%N world_chat))
                       ((1 - 1) * -1) ((1 - 1) * -1 + -1))), world_chat)
  /\ get_messages_before_timestamp 100%N 5000%N 1 (-1) world_chat =
    (Ok (Page.mk
           (Py.len (messages_before 100%N 5000%N world_chat)) 1 (-1)
           (response_of_row <$>
              Py.slice (cassandra_client.clustered
                          (messages_before 100%N 5000%N world_chat))
                       ((1 - 1) * -1) ((1 - 1) * -1 + -1))), world_chat)
  /\ exists conv_list,
      get_user_conversations 5 1 (-1) world_chat =
        (Ok (Page.mk (Py.len (conversations_of 5 world_chat)) 1 (-1) conv_list),
         world_chat)
      /\ Forall2 dict_of
           (Py.slice (Py.sort_reverse sort_key (conversations_of 5 world_chat))
                     ((1 - 1) * -1) ((1 - 1) * -1 + -1))
           conv_list.
Proof.
  apply (nonpositive_arguments_are_sliced world_chat 100%N 5000%N 5 1 (-1)).
  left. lia.
Defined.

(** C5, as stated, fails: page 0 and limit -1 are accepted.  On
    [world_chat], page 0 yields an empty page and limit -1 yields
    [results[0:-1]], all messages but the oldest. *)
Lemma nonpositive_arguments_not_rejected :
  ~ rejected (get_conversation_messages 100%N 0 20) world_chat
  /\ ~ rejected (get_messages_before_timestamp 100%N 5000%N 1 (-1)) world_chat
  /\ ~ rejected (get_user_conversations 5 (-1) 1) world_chat
  /\ fst (get_conversation_messages 100%N 0 20 world_chat) =
       Ok (Page.mk 2 0 20 [])
  /\ fst (get_conversation_messages 100%N 1 (-1) world_chat) =
       Ok (Page.mk 2 1 (-1)
             [MessageResponse.mk 105%N 4000%N 5 9 "hello" 100%N]).
Proof.
  repeat split; try reflexivity; intros [e He]; vm_compute in He; discriminate.
Qed.

(** ** Listing before a timestamp *)

Lemma listing_before_items conversation_id t page limit w m :
  m ∈ response_of_row <$>
        window (cassandra_client.clustered (messages_before conversation_id t w))
               page limit ->
  exists r, m = response_of_row r
            /\ r ∈ messages_of conversation_id w
            /\ (MsgRow.sent_at r < t)%N.
Proof.
  intros (r & -> & Hr)%list_elem_of_fmap. exists r. split; [done|].
  apply slice_elem_of in Hr.
  apply elem_of_sort_desc in Hr.
  apply list_elem_of_filter in Hr as [Hlt Hr]. done.
Qed.

(** C8: for positive [page] and [limit], every item that
    [get_messages_before_timestamp] returns is a stored message of the
    conversation with [created_at] strictly below the timestamp, and
    [total] counts exactly the stored messages of the conversation strictly
    below it; a message stamped exactly at the timestamp is in neither. *)
Theorem listing_before_is_strict
    (w : World) (conversation_id : UUID) (before_timestamp : datetime)
    (page limit : Z) :
  0 < page -> 0 < limit ->
  exists env,
    get_messages_before_timestamp conversation_id before_timestamp page limit w
      = (Ok env, w)
    /\ Forall (fun m => (MessageResponse.created_at m < before_timestamp)%N
                        /\ exists r, r ∈ messages_of conversation_id w
                                     /\ m = response_of_row r)
              (Page.data env)
    /\ Page.total env =
         Py.len (filter (fun r => (MsgRow.sent_at r < before_timestamp)%N)
                        (messages_of conversation_id w))
    /\ (forall r, r ∈ messages_of conversation_id w ->
                  MsgRow.sent_at r = before_timestamp ->
                  response_of_row r ∉ Page.data env).
Proof.
  intros _ _. eexists. split; [apply get_messages_before_timestamp_run|].
  simpl. split; [|split; [done|]].
  - apply Forall_forall. intros m Hm.
    apply listing_before_items in Hm as (r & -> & Hr & Hlt). simpl.
    split; [done|]. by exists r.
  - intros r _ Heq Hin.
    apply listing_before_items in Hin as (r' & Hrr' & _ & Hlt).
    apply (f_equal MessageResponse.created_at) in Hrr'. simpl in Hrr'. lia.
Qed.

Lemma listing_before_is_strict_witness :
  exists env,
    get_messages_before_timestamp 100%N 4000%N 1 20 world_chat
      = (Ok env, world_chat)
    /\ Forall (fun m => (MessageResponse.created_at m < 4000)%N
                        /\ exists r, r ∈ messages_of 100%N world_chat
                                     /\ m = response_of_row r)
              (Page.data env)
    /\ Page.total env =
         Py.len (filter (fun r => (MsgRow.sent_at r < 4000)%N)
                        (messages_of 100%N world_chat))
    /\ (forall r, r ∈ messages_of 100%N world_chat ->
                  MsgRow.sent_at r = 4000%N ->
                  response_of_row r ∉ Page.data env).
Proof. apply (listing_before_is_strict world_chat 100%N 4000%N 1 20); lia. Defined.

(** On [world_chat], "hello" is stamped 4000: listing before 4000 leaves it
    out of [data] and of [total]. *)
Example listing_before_excludes_equal :
  fst (get_messages_before_timestamp 100%N 4000%N 1 20 world_chat) =
    Ok (Page.mk 1 1 20 [MessageResponse.mk 103%N 2000%N 9 5 "hi" 100%N]).
Proof. reflexivity. Qed.

(** ** Lookup by id *)

(** C6: [get_conversation] raises its "Conversation not found" exception
    exactly when the store holds no conversation under the id, and raises
    nothing else; when the store holds one, it returns the dict made of that
    row. *)
Theorem get_conversation_not_found_iff (w : World) (conversation_id : UUID) :
  (fst (get_conversation conversation_id w) =
     Raise (Exception "Conversation not found")
   <-> conversations w !! conversation_id = None)
  /\ (rejected (get_conversation conversation_id) w
      <-> conversations w !! conversation_id = None)
  /\ (forall c, conversations w !! conversation_id = Some c ->
        exists d,
          get_conversation conversation_id w = (Ok d, w)
          /\ dict_of (ConvCols.row conversation_id c) d).
Proof.
  destruct (conversations w !! conversation_id) as [c|] eqn:Hc.
  - destruct (get_conversation_stored conversation_id c w Hc) as (d & Hd & Hof).
    unfold rejected. rewrite Hd. simpl. repeat split; try done.
    + by intros [e He].
    + intros c' [= <-]. by exists d.
  - unfold rejected. rewrite (get_conversation_missing conversation_id w Hc).
    simpl. repeat split; try done. by eexists.
Qed.

Example get_conversation_runs :
  fst (get_conversation 100%N world_chat) =
    Ok (ConversationDict.mk 100%N (Some 5) (Some 9) (Some 4000%N) (Some "hello"%string))
  /\ fst (get_conversation 101%N world_chat) =
    Raise (Exception "Conversation not found").
Proof. split; reflexivity. Qed.

(** ** The last-message summary *)

(** C9: every [create_message] into a stored conversation returns, and
    leaves the conversation's [last_message_content] and [last_message_at]
    equal to the new message's content and [created_at], whatever was stored
    there before (no comparison with the previous [last_message_at]). *)
Theorem last_message_overwritten
    (w : World) (conversation_id : UUID) (sender_id receiver_id : Z)
    (content : string) (c : ConvCols.t) :
  conversations w !! conversation_id = Some c ->
  exists msg w',
    create_message conversation_id sender_id receiver_id content w = (Ok msg, w')
    /\ MessageResponse.content msg = content
    /\ conversations w' !! conversation_id =
         Some (ConvCols.mk (ConvCols.list_of_users c) (ConvCols.created_at c)
                           (Some (MessageResponse.created_at msg))
                           (Some content)).
Proof.
  intros Hc.
  destruct (create_message_run conversation_id sender_id receiver_id content w)
    as (w' & Hrun & Hconv & _).
  eexists _, w'. split; [exact Hrun|]. simpl. split; [done|].
  rewrite Hconv, lookup_alter_eq, Hc. done.
Qed.

(** In [world_backwards] the stored [last_message_at] is 7000 and the clock
    now reads 5000: the older stamp replaces the newer one. *)
Lemma last_message_overwritten_witness :
  exists msg w',
    create_message 100%N 5 9 "late" world_backwards = (Ok msg, w')
    /\ MessageResponse.content msg = "late"%string
    /\ conversations w' !! 100%N =
         Some (ConvCols.mk [9; 5] (Some 8000%N)
                           (Some (MessageResponse.created_at msg))
                           (Some "late"%string)).
Proof.
  apply (last_message_overwritten world_backwards 100%N 5 9 "late"
           (ConvCols.mk [9; 5] (Some 8000%N) (Some 7000%N) (Some "hi"%string))).
  reflexivity.
Defined.

Example older_stamp_replaces_newer :
  conversations world_backwards !! 100%N =
    Some (ConvCols.mk [9; 5] (Some 8000%N) (Some 7000%N) (Some "hi"%string))
  /\ conversations (snd (create_message 100%N 5 9 "late" world_backwards)) !! 100%N =
    Some (ConvCols.mk [9; 5] (Some 8000%N) (Some 5000%N) (Some "late"%string)).
Proof. split; reflexivity. Qed.

(** ** Find-or-create *)

Lemma find_filter {A} (P : A -> Prop) `{!forall x, Decision (P x)}
    (p : A -> bool) (l : list A) :
  find p (filter P l) = find (fun x => bool_decide (P x) && p x) l.
Proof.
  induction l as [|x l IH]; [done|].
  rewrite filter_cons. simpl. destruct (decide (P x)) as [HP|HP].
  - rewrite bool_decide_eq_true_2 by done. simpl. by rewrite IH.
  - rewrite bool_decide_eq_false_2 by done. simpl. done.
Qed.

Lemma find_pointwise {A} (p q : A -> bool) (l : list A) :
  (forall x, p x = q x) -> find p l = find q l.
Proof.
  intros Hpq. induction l as [|x l IH]; [done|]. simpl.
  by rewrite Hpq, IH.
Qed.

Lemma holds_both_comm a b conv : holds_both a b conv = holds_both b a conv.
Proof. unfold holds_both. apply andb_comm. Qed.

Lemma elem_of_rows r w :
  r ∈ cassandra_client.rows_of_conversations w <->
  exists k c, conversations w !! k = Some c /\ r = ConvCols.row k c.
Proof.
  unfold cassandra_client.rows_of_conversations.
  rewrite list_elem_of_fmap. split.
  - intros ([k c] & -> & Hkc). exists k, c.
    by apply elem_of_map_to_list in Hkc.
  - intros (k & c & Hkc & ->). exists (k, c). split; [done|].
    by apply elem_of_map_to_list.
Qed.

(** The search of [create_or_get_conversation user1_id user2_id]. *)
Lemma search_holds_both user1_id user2_id w :
  find (fun conv => bool_decide (user2_id ∈ ConvRow.list_of_users conv))
       (conversations_of user1_id w) =
  find (holds_both user1_id user2_id) (cassandra_client.rows_of_conversations w).
Proof. unfold conversations_of. apply find_filter. Qed.

Lemma create_or_get_conversation_found user1_id user2_id w conv :
  find (holds_both user1_id user2_id) (cassandra_client.rows_of_conversations w)
    = Some conv ->
  create_or_get_conversation user1_id user2_id w = (Ok (StoredRow conv), w).
Proof.
  intros Hfind. rewrite <- search_holds_both in Hfind.
  unfold create_or_get_conversation, bind,
    cassandra_client.select_conversations_containing.
  fold (conversations_of user1_id w). by rewrite Hfind.
Qed.

Lemma create_or_get_conversation_created user1_id user2_id w :
  find (holds_both user1_id user2_id) (cassandra_client.rows_of_conversations w)
    = None ->
  exists w',
    create_or_get_conversation user1_id user2_id w =
      (Ok (NewDict
             (NewConversationDict.mk
                (uuid4_src w (drawn w))
                (Py.min user1_id user2_id) (Py.max user1_id user2_id)
                (utcnow_src w (S (drawn w))) (utcnow_src w (S (drawn w)))
                None [user1_id; user2_id])), w')
    /\ conversations w' =
         <[uuid4_src w (drawn w) :=
             ConvCols.mk [user1_id; user2_id]
                         (Some (utcnow_src w (S (drawn w))))
                         (Some (utcnow_src w (S (drawn w)))) None]>
           (conversations w)
    /\ messages_by_conversation w' = messages_by_conversation w.
Proof.
  intros Hfind. rewrite <- search_holds_both in Hfind.
  unfold create_or_get_conversation, bind at 1,
    cassandra_client.select_conversations_containing.
  fold (conversations_of user1_id w). rewrite Hfind.
  eexists. split; [reflexivity|]. split; reflexivity.
Qed.

(** After the insert, the one row holding both users is the new one. *)
Lemma search_after_insert a b w w' k cols conv :
  find (holds_both a b) (cassandra_client.rows_of_conversations w) = None ->
  conversations w' = <[k := cols]> (conversations w) ->
  find (holds_both a b) (cassandra_client.rows_of_conversations w') = Some conv ->
  conv = ConvCols.row k cols.
Proof.
  intros Hnone Hw' Hsome.
  apply find_some in Hsome as [Hin Hboth].
  apply list_elem_of_In, elem_of_rows in Hin as (k' & c & Hk' & ->).
  rewrite Hw' in Hk'. apply lookup_insert_Some in Hk' as [[<- <-]|[Hne Hk']].
  - done.
  - exfalso.
    assert (ConvCols.row k' c ∈ cassandra_client.rows_of_conversations w) as Hin.
    { apply elem_of_rows. by exists k', c. }
    apply list_elem_of_In in Hin.
    pose proof (find_none _ _ Hnone _ Hin) as Hfalse. congruence.
Qed.

Lemma search_after_insert_finds a b w w' k cols :
  conversations w' = <[k := cols]> (conversations w) ->
  holds_both a b (ConvCols.row k cols) = true ->
  is_Some (find (holds_both a b) (cassandra_client.rows_of_conversations w')).
Proof.
  intros Hw' Hboth.
  destruct (find _ _) as [conv|] eqn:Hfind; [by eexists|]. exfalso.
  assert (ConvCols.row k cols ∈ cassandra_client.rows_of_conversations w') as Hin.
  { apply elem_of_rows. exists k, cols. split; [|done].
    rewrite Hw'. apply lookup_insert_eq. }
  apply list_elem_of_In in Hin.
  pose proof (find_none _ _ Hfind _ Hin) as Hfalse. congruence.
Qed.

Lemma holds_both_pair a b k created last content :
  holds_both a b (ConvCols.row k (ConvCols.mk [a; b] created last content)) = true.
Proof.
  unfold holds_both. simpl.
  rewrite !bool_decide_eq_true_2; [done| |]; rewrite !elem_of_cons; tauto.
Qed.

(** C2: for every pair of user ids and every starting world, a call of
    [create_or_get_conversation] followed by a second call, with the
    arguments in the same order or reversed, returns the same conversation
    id both times (the id read as the controller reads it). *)
Theorem create_or_get_conversation_twice (w : World) (user_a user_b : Z) :
  exists c1 w1 c2 w2 c2' w2' i,
    create_or_get_conversation user_a user_b w = (Ok c1, w1)
    /\ create_or_get_conversation user_a user_b w1 = (Ok c2, w2)
    /\ create_or_get_conversation user_b user_a w1 = (Ok c2', w2')
    /\ MessageController.conversation_id_of c1 = Some i
    /\ MessageController.conversation_id_of c2 = Some i
    /\ MessageController.conversation_id_of c2' = Some i.
Proof.
  destruct (find (holds_both user_a user_b)
                 (cassandra_client.rows_of_conversations w))
    as [conv|] eqn:Hfind.
  - pose proof Hfind as Hrev.
    rewrite (find_pointwise _ (holds_both user_b user_a)) in Hrev
      by apply holds_both_comm.
    exists (StoredRow conv), w, (StoredRow conv), w, (StoredRow conv), w,
      (ConvRow.conversation_id conv).
    rewrite (create_or_get_conversation_found _ _ _ _ Hfind).
    rewrite (create_or_get_conversation_found _ _ _ _ Hrev). done.
  - destruct (create_or_get_conversation_created _ _ _ Hfind)
      as (w1 & Hrun & Hconv & _).
    pose proof (search_after_insert_finds user_a user_b w w1 _ _ Hconv
                  (holds_both_pair _ _ _ _ _ _)) as [conv Hconv2].
    pose proof (search_after_insert _ _ _ _ _ _ _ Hfind Hconv Hconv2) as ->.
    pose proof Hconv2 as Hrev.
    rewrite (find_pointwise _ (holds_both user_b user_a)) in Hrev
      by apply holds_both_comm.
    eexists _, w1, _, w1, _, w1, (uuid4_src w (drawn w)).
    rewrite Hrun.
    rewrite (create_or_get_conversation_found _ _ _ _ Hconv2).
    rewrite (create_or_get_conversation_found _ _ _ _ Hrev). done.
Qed.

(** End-to-end scenario 2 of the spec on the empty store. *)
Example create_or_get_conversation_5_9_then_9_5 :
  exists c1 w1 c2 w2,
    create_or_get_conversation 5 9 world0 = (Ok c1, w1)
    /\ create_or_get_conversation 9 5 w1 = (Ok c2, w2)
    /\ MessageController.conversation_id_of c1 = Some 100%N
    /\ MessageController.conversation_id_of c2 = Some 100%N.
Proof. eexists _, _, _, _. repeat split; reflexivity. Qed.

(** ** Participants of the conversation handed back *)









(** ** Order of the participants reported *)

(** [get_conversation] reports a stored pair as (min, max). *)
Lemma get_conversation_normalised w k c x y :
  conversations w !! k = Some c ->
  ConvCols.list_of_users c = [x; y] ->
  exists d,
    get_conversation k w = (Ok d, w)
    /\ ConversationDict.user1_id d = Some (Z.min x y)
    /\ ConversationDict.user2_id d = Some (Z.max x y).
Proof.
  intros Hk Hxy.
  destruct (get_conversation_stored k c w Hk) as (d & Hd & Hpair & _).
  exists d. split; [done|]. simpl in Hpair.
  rewrite Hxy, user_pair_two in Hpair. by injection Hpair as <- <-.
Qed.

(** So does every item of [get_user_conversations]. *)
Lemma get_user_conversations_normalised user_id page limit w :
  two_party w ->
  exists env,
    get_user_conversations user_id page limit w = (Ok env, w)
    /\ Forall (fun d =>
                 exists c x y,
                   conversations w !! ConversationDict.id d = Some c
                   /\ ConvCols.list_of_users c = [x; y]
                   /\ ConversationDict.user1_id d = Some (Z.min x y)
                   /\ ConversationDict.user2_id d = Some (Z.max x y))
              (Page.data env).
Proof.
  intros Hw.
  destruct (get_user_conversations_run user_id page limit w)
    as (conv_list & Hrun & Hdata).
  eexists. split; [exact Hrun|]. simpl.
  eapply Forall2_Forall_r; [exact Hdata|].
  apply Forall_forall. intros conv Hconv d (Hpair & Hid & _).
  apply slice_elem_of, elem_of_sort_desc, list_elem_of_filter in Hconv
    as [_ Hconv].
  apply elem_of_rows in Hconv as (k & c & Hk & ->). simpl in *.
  pose proof (Hw k c Hk) as Hlen.
  destruct (ConvCols.list_of_users c) as [|x [|y [|? ?]]] eqn:Hxy; try done.
  rewrite user_pair_two in Hpair. injection Hpair as <- <-.
  exists c, x, y. by rewrite Hid.
Qed.

(** And so does the create branch of [create_or_get_conversation]. *)
Lemma create_branch_normalised user1_id user2_id w c w' :
  create_or_get_conversation user1_id user2_id w = (Ok c, w') ->
  find (holds_both user1_id user2_id) (cassandra_client.rows_of_conversations w)
    = None ->
  get_user_ids c = Some (Z.min user1_id user2_id, Z.max user1_id user2_id).
Proof.
  intros Hrun Hfind.
  destruct (create_or_get_conversation_created _ _ _ Hfind) as (w1 & Hrun' & _).
  rewrite Hrun' in Hrun. injection Hrun as <- _. simpl.
  by destruct (py_min_max user1_id user2_id) as [-> ->].
Qed.

(** C4 at its failing input: the found branch of
    [create_or_get_conversation] hands back the stored row as it is.  For the
    conversation created as (9, 5) it reports [list_of_users = [9; 5]], for
    the one created as (5, 9) it reports [[5; 9]], and in neither case does
    the result carry [user1_id]/[user2_id]; [get_conversation] on the same
    two stores reports (5, 9) both times. *)
Theorem found_branch_keeps_creation_order :
  fst (create_or_get_conversation 5 9 world_9_5) =
    Ok (StoredRow (ConvRow.mk 100%N [9; 5] (Some 1000%N) (Some 1000%N) None))
  /\ fst (create_or_get_conversation 5 9 world_5_9) =
    Ok (StoredRow (ConvRow.mk 100%N [5; 9] (Some 1000%N) (Some 1000%N) None))
  /\ get_user_ids
       (StoredRow (ConvRow.mk 100%N [9; 5] (Some 1000%N) (Some 1000%N) None))
     = None
  /\ fst (get_conversation 100%N world_9_5) =
    Ok (ConversationDict.mk 100%N (Some 5) (Some 9) (Some 1000%N) None)
  /\ fst (get_conversation 100%N world_5_9) =
    Ok (ConversationDict.mk 100%N (Some 5) (Some 9) (Some 1000%N) None).
Proof. repeat split; reflexivity. Qed.

(** * Further properties of the models and the controllers *)

(** ** Windows as take and drop *)

Lemma take_min_length {A} (l : list A) n :
  take (n `min` length l) l = take n l.
Proof.
  destruct (decide (n <= length l)%nat) as [Hle|Hgt].
  - by rewrite Nat.min_l.
  - rewrite Nat.min_r by lia. rewrite !take_ge; [done | lia | lia].
Qed.

(** From the first page on, a window is [limit] items after a prefix of
    [(page - 1) * limit]. *)
Lemma window_take_drop {A} (results : list A) page limit :
  0 < page -> 0 <= limit ->
  window results page limit =
    take (Z.to_nat limit) (drop (Z.to_nat ((page - 1) * limit)) results).
Proof.
  intros Hp Hl. unfold window, Py.slice, Py.adjust_index, Py.len.
  assert (0 <= (page - 1) * limit) as Hs by nia.
  set (start := (page - 1) * limit) in *.
  set (n := Z.of_nat (length results)).
  destruct (Z.ltb_spec start 0); [lia|].
  destruct (Z.ltb_spec (start + limit) 0); [lia|].
  destruct (decide (n <= start)) as [Hge|Hlt].
  - rewrite (drop_ge results (Z.to_nat start)) by lia.
    rewrite take_nil.
    replace (Z.to_nat (Z.min (start + limit) n - Z.min start n)) with 0%nat
      by lia.
    by rewrite take_0.
  - replace (Z.min start n) with start by lia.
    rewrite <- (take_min_length _ (Z.to_nat limit)), length_drop.
    f_equal. lia.
Qed.

Lemma window_all {A} (results : list A) limit :
  Py.len results <= limit -> window results 1 limit = results.
Proof.
  intros Hle. unfold Py.len in Hle.
  rewrite window_take_drop by lia. simpl. rewrite drop_0.
  apply take_ge. lia.
Qed.

Lemma pages_take {A} (results : list A) n limit :
  0 <= limit -> pages results n limit = take (n * Z.to_nat limit) results.
Proof.
  intros Hl. unfold pages. induction n as [|n IH]; [done|].
  rewrite seq_S, fmap_app, concat_app, IH. simpl.
  rewrite app_nil_r, window_take_drop by lia.
  replace (Z.to_nat ((Z.of_nat (S n) - 1) * limit))
    with (n * Z.to_nat limit)%nat by nia.
  rewrite take_take_drop. f_equal. lia.
Qed.

(** ** Contents of the message listings *)

Lemma listing_items conversation_id page limit w m :
  m ∈ response_of_row <$>
        window (cassandra_client.clustered (messages_of conversation_id w))
               page limit ->
  exists r, m = response_of_row r /\ r ∈ messages_by_conversation w
            /\ MsgRow.conversation_id r = conversation_id.
Proof.
  intros (r & -> & Hr)%list_elem_of_fmap. exists r. split; [done|].
  apply slice_elem_of, elem_of_sort_desc, list_elem_of_filter in Hr. tauto.
Qed.

Lemma listed_get_conversation_messages conversation_id page limit w :
  listed (get_conversation_messages conversation_id page limit w) =
    response_of_row <$>
      window (cassandra_client.clustered (messages_of conversation_id w))
             page limit.
Proof. unfold listed. by rewrite get_conversation_messages_run. Qed.

Lemma listed_get_messages_before_timestamp conversation_id t page limit w :
  listed (get_messages_before_timestamp conversation_id t page limit w) =
    response_of_row <$>
      window (cassandra_client.clustered (messages_before conversation_id t w))
             page limit.
Proof. unfold listed. by rewrite get_messages_before_timestamp_run. Qed.

(** X1: whatever [page] and [limit] are, every item
    [get_conversation_messages] returns is a stored message of the
    conversation asked for. *)
Theorem listing_stays_in_conversation
    (w : World) (conversation_id : UUID) (page limit : Z) :
  exists env,
    get_conversation_messages conversation_id page limit w = (Ok env, w)
    /\ Forall (fun m => MessageResponse.conversation_id m = conversation_id
                        /\ exists r, r ∈ messages_by_conversation w
                                     /\ m = response_of_row r)
              (Page.data env).
Proof.
  eexists. split; [apply get_conversation_messages_run|]. simpl.
  apply Forall_forall. intros m (r & -> & Hr & Hc)%listing_items.
  split; [done | by exists r].
Qed.

(** X2: a first page that is at least as long as the conversation lists
    every stored message of it exactly once. *)
Theorem full_listing_is_complete
    (w : World) (conversation_id : UUID) (limit : Z) :
  Py.len (messages_of conversation_id w) <= limit ->
  exists env,
    get_conversation_messages conversation_id 1 limit w = (Ok env, w)
    /\ Page.data env ≡ₚ response_of_row <$> messages_of conversation_id w.
Proof.
  intros Hle. eexists. split; [apply get_conversation_messages_run|]. simpl.
  rewrite window_all by (by rewrite len_clustered).
  unfold cassandra_client.clustered. by rewrite sort_desc_Permutation.
Qed.

Lemma full_listing_is_complete_witness :
  exists env,
    get_conversation_messages 100%N 1 2 world_chat = (Ok env, world_chat)
    /\ Page.data env ≡ₚ response_of_row <$> messages_of 100%N world_chat.
Proof. apply (full_listing_is_complete world_chat 100%N 2). vm_compute. discriminate. Defined.

(** X3: for a positive [limit], pages 1 to [n] of either message listing,
    put one after the other, are the first page of the listing with limit
    [n * limit]: consecutive pages neither skip nor repeat an item. *)
Theorem message_pages_concatenate
    (w : World) (conversation_id : UUID) (before_timestamp : datetime)
    (n : nat) (limit : Z) :
  0 < limit ->
  concat ((fun p => listed (get_conversation_messages
                              conversation_id (Z.of_nat p) limit w))
            <$> seq 1 n)
    = listed (get_conversation_messages
                conversation_id 1 (Z.of_nat n * limit) w)
  /\ concat ((fun p => listed (get_messages_before_timestamp
                                 conversation_id before_timestamp
                                 (Z.of_nat p) limit w))
               <$> seq 1 n)
    = listed (get_messages_before_timestamp
                conversation_id before_timestamp 1 (Z.of_nat n * limit) w).
Proof.
  intros Hl.
  assert (forall (rows : list MsgRow.t),
    concat ((fun p => response_of_row <$> window rows (Z.of_nat p) limit)
              <$> seq 1 n)
    = response_of_row <$> window rows 1 (Z.of_nat n * limit)) as Hpages.
  { intros rows.
    transitivity (response_of_row <$> pages rows n limit).
    - unfold pages. generalize (seq 1 n). intros ps.
      induction ps as [|p ps IH]; [done|].
      by rewrite !fmap_cons, !concat_cons, fmap_app, IH.
    - rewrite pages_take, window_take_drop by nia. simpl. rewrite drop_0.
      do 2 f_equal. nia. }
  split.
  - rewrite listed_get_conversation_messages, <- Hpages. reflexivity.
  - rewrite listed_get_messages_before_timestamp, <- Hpages.
    f_equal. apply list_fmap_ext. intros _ p _.
    apply listed_get_messages_before_timestamp.
Qed.

Lemma message_pages_concatenate_witness :
  concat ((fun p => listed (get_conversation_messages
                              100%N (Z.of_nat p) 1 world_chat))
            <$> seq 1 2)
    = listed (get_conversation_messages 100%N 1 (Z.of_nat 2 * 1) world_chat)
  /\ concat ((fun p => listed (get_messages_before_timestamp
                                 100%N 5000%N (Z.of_nat p) 1 world_chat))
               <$> seq 1 2)
    = listed (get_messages_before_timestamp
                100%N 5000%N 1 (Z.of_nat 2 * 1) world_chat).
Proof. apply (message_pages_concatenate world_chat 100%N 5000%N 2 1). lia. Defined.

(** X4: for positive [page] and [limit], [get_messages_before_timestamp]
    returns its items newest first and at most [limit] of them. *)
Theorem listing_before_sorted_and_bounded
    (w : World) (conversation_id : UUID) (before_timestamp : datetime)
    (page limit : Z) :
  0 < page -> 0 < limit ->
  exists env,
    get_messages_before_timestamp conversation_id before_timestamp page limit w
      = (Ok env, w)
    /\ StronglySorted newest_first (Page.data env)
    /\ Py.len (Page.data env) <= limit.
Proof.
  intros Hp Hl. eexists. split; [apply get_messages_before_timestamp_run|].
  simpl. split; [apply listing_newest_first|].
  unfold Py.len. rewrite length_fmap. by apply window_length.
Qed.

Lemma listing_before_sorted_and_bounded_witness :
  exists env,
    get_messages_before_timestamp 100%N 5000%N 1 1 world_chat
      = (Ok env, world_chat)
    /\ StronglySorted newest_first (Page.data env)
    /\ Py.len (Page.data env) <= 1.
Proof.
  apply (listing_before_sorted_and_bounded world_chat 100%N 5000%N 1 1); lia.
Defined.

(** ** Listing before a timestamp against the plain listing *)

Section sort_desc_filter.
Context {A : Type} (key : A -> N) (P : A -> Prop) `{!forall x, Decision (P x)}.

Lemma insert_desc_front x l :
  Forall (fun y => (key y <= key x)%N) l -> insert_desc key x l = x :: l.
Proof.
  destruct 1 as [|y ys Hy _]; [done|]. simpl.
  by destruct (N.leb_spec (key y) (key x)); [|lia].
Qed.

Lemma filter_insert_desc_out x l :
  ~ P x -> filter P (insert_desc key x l) = filter P l.
Proof.
  intros HP. induction l as [|y ys IH]; simpl.
  - by rewrite filter_cons_False.
  - destruct (key y <=? key x)%N.
    + by rewrite filter_cons_False.
    + rewrite !(filter_cons _ y). by rewrite IH.
Qed.

Lemma filter_insert_desc_in x l :
  StronglySorted (desc key) l -> P x ->
  filter P (insert_desc key x l) = insert_desc key x (filter P l).
Proof.
  intros Hl HP. induction Hl as [|y ys Hys IH Hy]; simpl.
  - by rewrite filter_cons_True.
  - destruct (N.leb_spec (key y) (key x)) as [Hle|Hlt].
    + rewrite filter_cons_True by done.
      rewrite insert_desc_front; [done|].
      apply Forall_forall. intros z Hz.
      apply list_elem_of_filter in Hz as [_ Hz].
      apply elem_of_cons in Hz as [->|Hz]; [done|].
      rewrite Forall_forall in Hy. specialize (Hy z Hz). unfold desc in Hy. lia.
    + rewrite !(filter_cons _ y). destruct (decide (P y)); simpl.
      * destruct (N.leb_spec (key y) (key x)); [lia|]. by rewrite IH.
      * apply IH.
Qed.

(** Filtering commutes with the stable descending sort. *)
Lemma sort_desc_filter l :
  sort_desc key (filter P l) = filter P (sort_desc key l).
Proof.
  induction l as [|x l IH]; [done|]. simpl.
  rewrite filter_cons. destruct (decide (P x)) as [HP|HP]; simpl.
  - rewrite IH. symmetry. apply filter_insert_desc_in; [|done].
    apply sort_desc_sorted.
  - rewrite IH. symmetry. by apply filter_insert_desc_out.
Qed.
End sort_desc_filter.

Lemma filter_fmap_response (t : datetime) (rows : list MsgRow.t) :
  filter (fun m => (MessageResponse.created_at m < t)%N)
         (response_of_row <$> rows)
  = response_of_row <$> filter (fun r => (MsgRow.sent_at r < t)%N) rows.
Proof.
  induction rows as [|r rows IH]; [done|].
  rewrite fmap_cons, !filter_cons. simpl.
  destruct (decide (MsgRow.sent_at r < t)%N); by rewrite IH.
Qed.

(** X5: listing before a timestamp is the plain listing with the items
    stamped at or after the timestamp left out, in the same order: on a
    first page long enough for the whole conversation, the [data] of
    [get_messages_before_timestamp] is the [data] of
    [get_conversation_messages] filtered by [created_at < before_timestamp]. *)
Theorem listing_before_filters_listing
    (w : World) (conversation_id : UUID) (before_timestamp : datetime)
    (limit : Z) :
  Py.len (messages_of conversation_id w) <= limit ->
  listed (get_messages_before_timestamp
            conversation_id before_timestamp 1 limit w)
  = filter (fun m => (MessageResponse.created_at m < before_timestamp)%N)
           (listed (get_conversation_messages conversation_id 1 limit w)).
Proof.
  intros Hle.
  rewrite listed_get_messages_before_timestamp,
    listed_get_conversation_messages.
  rewrite (window_all (cassandra_client.clustered (messages_of _ _)))
    by (by rewrite len_clustered).
  rewrite window_all.
  - rewrite filter_fmap_response. f_equal.
    unfold cassandra_client.clustered, messages_before.
    apply sort_desc_filter.
  - rewrite len_clustered. unfold messages_before, Py.len in *.
    pose proof (length_filter (fun r => (MsgRow.sent_at r < before_timestamp)%N)
                  (messages_of conversation_id w)). lia.
Qed.

Lemma listing_before_filters_listing_witness :
  listed (get_messages_before_timestamp 100%N 4000%N 1 2 world_chat)
  = filter (fun m => (MessageResponse.created_at m < 4000)%N)
           (listed (get_conversation_messages 100%N 1 2 world_chat)).
Proof.
  apply (listing_before_filters_listing world_chat 100%N 4000%N 2).
  vm_compute. discriminate.
Defined.

(** ** Appending and reading back *)

Lemma messages_of_create_message conversation_id sender_id receiver_id content w :
  exists msg w',
    create_message conversation_id sender_id receiver_id content w = (Ok msg, w')
    /\ msg = MessageResponse.mk (uuid4_src w (S (drawn w)))
                                (utcnow_src w (drawn w))
                                sender_id receiver_id content conversation_id
    /\ (exists row,
          msg = response_of_row row
          /\ messages_of conversation_id w' = messages_of conversation_id w ++ [row])
    /\ (forall other, other ≠ conversation_id ->
          messages_of other w' = messages_of other w).
Proof.
  destruct (create_message_run conversation_id sender_id receiver_id content w)
    as (w' & Hrun & _ & Hmsgs).
  eexists _, w'. split; [exact Hrun|]. split; [done|]. split.
  - exists (MsgRow.mk conversation_id (utcnow_src w (drawn w))
                      (uuid4_src w (S (drawn w)))
                      sender_id receiver_id content).
    split; [reflexivity|].
    unfold messages_of. rewrite Hmsgs, filter_app. f_equal.
    by rewrite filter_cons_True, filter_nil.
  - intros other Hne. unfold messages_of. rewrite Hmsgs, filter_app.
    rewrite filter_cons_False by (simpl; congruence).
    by rewrite filter_nil, app_nil_r.
Qed.

(** X6: after [create_message] the conversation lists one message more,
    the returned message is on any first page longer than the conversation
    was, and the listing of every other conversation is what it was. *)
Theorem create_message_is_listed
    (w : World) (conversation_id : UUID) (sender_id receiver_id : Z)
    (content : string) :
  exists msg w',
    create_message conversation_id sender_id receiver_id content w = (Ok msg, w')
    /\ (forall page limit,
          exists env env',
            get_conversation_messages conversation_id page limit w = (Ok env, w)
            /\ get_conversation_messages conversation_id page limit w'
               = (Ok env', w')
            /\ Page.total env' = Page.total env + 1)
    /\ (forall limit,
          Py.len (messages_of conversation_id w) < limit ->
          msg ∈ listed (get_conversation_messages conversation_id 1 limit w'))
    /\ (forall other page limit,
          other ≠ conversation_id ->
          fst (get_conversation_messages other page limit w')
          = fst (get_conversation_messages other page limit w)).
Proof.
  destruct (messages_of_create_message
              conversation_id sender_id receiver_id content w)
    as (msg & w' & Hrun & _ & (row & -> & Hof) & Hother).
  eexists _, w'. split; [exact Hrun|]. split; [|split].
  - intros page limit. eexists _, _.
    split; [apply get_conversation_messages_run|].
    split; [apply get_conversation_messages_run|]. simpl.
    rewrite Hof. unfold Py.len. rewrite length_app. simpl. lia.
  - intros limit Hlt. rewrite listed_get_conversation_messages.
    rewrite window_all.
    + apply list_elem_of_fmap_2, elem_of_sort_desc. rewrite Hof.
      apply elem_of_app. right. by apply list_elem_of_singleton.
    + rewrite len_clustered, Hof. unfold Py.len in *.
      rewrite length_app. simpl. lia.
  - intros other page limit Hne.
    rewrite !get_conversation_messages_run. simpl. by rewrite Hother.
Qed.

(** X7: [create_message] only appends to the stored messages, leaves every
    other conversation exactly as it was, and keeps the participants and
    the creation time of every conversation. *)
Theorem create_message_touches_summary_only
    (w : World) (conversation_id : UUID) (sender_id receiver_id : Z)
    (content : string) :
  exists msg w' row,
    create_message conversation_id sender_id receiver_id content w = (Ok msg, w')
    /\ messages_by_conversation w' = messages_by_conversation w ++ [row]
    /\ msg = response_of_row row
    /\ (forall k c, conversations w !! k = Some c ->
          exists c',
            conversations w' !! k = Some c'
            /\ ConvCols.list_of_users c' = ConvCols.list_of_users c
            /\ ConvCols.created_at c' = ConvCols.created_at c
            /\ (k ≠ conversation_id -> c' = c)).
Proof.
  destruct (create_message_run conversation_id sender_id receiver_id content w)
    as (w' & Hrun & Hconv & Hmsgs).
  eexists _, w',
    (MsgRow.mk conversation_id (utcnow_src w (drawn w))
               (uuid4_src w (S (drawn w))) sender_id receiver_id content).
  split; [exact Hrun|]. split; [exact Hmsgs|]. split; [reflexivity|].
  intros k c Hk. rewrite Hconv, lookup_alter.
  destruct (decide (conversation_id = k)) as [<-|Hne].
  - rewrite Hk. simpl. eexists. split; [done|]. simpl. repeat split; congruence.
  - exists c. repeat split; done.
Qed.

(** X8: a message appended to a stored conversation is what
    [get_conversation] then reports as the last message, with the
    participants it reported before. *)
Theorem create_message_then_get_conversation
    (w : World) (conversation_id : UUID) (sender_id receiver_id : Z)
    (content : string) (c : ConvCols.t) :
  conversations w !! conversation_id = Some c ->
  exists msg w' d0 d,
    create_message conversation_id sender_id receiver_id content w = (Ok msg, w')
    /\ get_conversation conversation_id w = (Ok d0, w)
    /\ get_conversation conversation_id w' = (Ok d, w')
    /\ ConversationDict.id d = conversation_id
    /\ ConversationDict.last_message_content d = Some content
    /\ ConversationDict.last_message_at d = Some (MessageResponse.created_at msg)
    /\ ConversationDict.user1_id d = ConversationDict.user1_id d0
    /\ ConversationDict.user2_id d = ConversationDict.user2_id d0.
Proof.
  intros Hc.
  destruct (create_message_run conversation_id sender_id receiver_id content w)
    as (w' & Hrun & Hconv & _).
  assert (conversations w' !! conversation_id =
            Some (ConvCols.mk (ConvCols.list_of_users c) (ConvCols.created_at c)
                              (Some (utcnow_src w (drawn w))) (Some content)))
    as Hc' by (by rewrite Hconv, lookup_alter_eq, Hc).
  destruct (get_conversation_stored _ _ _ Hc) as (d0 & Hd0 & Hp0 & _).
  destruct (get_conversation_stored _ _ _ Hc') as (d & Hd & Hp & Hid & Hat & Hct).
  eexists _, w', d0, d. split; [exact Hrun|]. split; [exact Hd0|].
  split; [exact Hd|]. simpl in *.
  rewrite Hp0 in Hp. injection Hp as <- <-. done.
Qed.

Lemma create_message_then_get_conversation_witness :
  exists msg w' d0 d,
    create_message 100%N 5 9 "late" world_backwards = (Ok msg, w')
    /\ get_conversation 100%N world_backwards = (Ok d0, world_backwards)
    /\ get_conversation 100%N w' = (Ok d, w')
    /\ ConversationDict.id d = 100%N
    /\ ConversationDict.last_message_content d = Some "late"%string
    /\ ConversationDict.last_message_at d = Some (MessageResponse.created_at msg)
    /\ ConversationDict.user1_id d = ConversationDict.user1_id d0
    /\ ConversationDict.user2_id d = ConversationDict.user2_id d0.
Proof.
  apply (create_message_then_get_conversation world_backwards 100%N 5 9 "late"
           (ConvCols.mk [9; 5] (Some 8000%N) (Some 7000%N) (Some "hi"%string))).
  reflexivity.
Defined.

(** ** The conversations of a user *)

Lemma Forall2_sorted_keys {A B} (R : A -> B -> Prop)
    (key_a : A -> N) (key_b : B -> N) (l : list A) (k : list B) :
  (forall x y, R x y -> key_b y = key_a x) ->
  Forall2 R l k ->
  StronglySorted (desc key_a) l -> StronglySorted (desc key_b) k.
Proof.
  intros Hkey HR. induction HR as [|x y l k Hxy HR IH]; intros Hl.
  - constructor.
  - apply StronglySorted_cons in Hl as [Hx Hl].
    apply StronglySorted_cons. split; [|by apply IH].
    eapply Forall2_Forall_r; [exact HR|].
    eapply Forall_impl; [exact Hx|]. intros x' Hx' y' Hxy'.
    unfold desc in *. by rewrite (Hkey _ _ Hxy), (Hkey _ _ Hxy').
Qed.

Lemma conversations_of_stored user_id w conv :
  conv ∈ conversations_of user_id w ->
  exists c, conversations w !! ConvRow.conversation_id conv = Some c
            /\ conv = ConvCols.row (ConvRow.conversation_id conv) c
            /\ user_id ∈ ConvCols.list_of_users c.
Proof.
  intros [Hu Hconv]%list_elem_of_filter.
  apply elem_of_rows in Hconv as (k & c & Hk & ->). by exists c.
Qed.

(** X9: for positive [page] and [limit], the items of
    [get_user_conversations] come in non-increasing order of
    [last_message_at], a missing one counting as [datetime.min]; there are at
    most [limit] of them; and each is a stored conversation that has the user
    among its participants, with its stored summary. *)
Theorem user_conversations_latest_first
    (w : World) (user_id : Z) (page limit : Z) :
  0 < page -> 0 < limit ->
  exists env,
    get_user_conversations user_id page limit w = (Ok env, w)
    /\ StronglySorted latest_first (Page.data env)
    /\ Py.len (Page.data env) <= limit
    /\ Forall (fun d =>
                 exists c,
                   conversations w !! ConversationDict.id d = Some c
                   /\ user_id ∈ ConvCols.list_of_users c
                   /\ ConversationDict.last_message_at d
                      = ConvCols.last_message_at c
                   /\ ConversationDict.last_message_content d
                      = ConvCols.last_message_content c)
              (Page.data env).
Proof.
  intros Hp Hl.
  destruct (get_user_conversations_run user_id page limit w)
    as (conv_list & Hrun & Hdata).
  eexists. split; [exact Hrun|]. simpl. split; [|split].
  - eapply (Forall2_sorted_keys dict_of sort_key dict_key); [|exact Hdata|].
    + intros conv d (_ & _ & Hat & _). unfold dict_key, sort_key.
      by rewrite Hat.
    + eapply StronglySorted_sublist; [apply slice_sublist|].
      apply sort_desc_sorted.
  - unfold Py.len. rewrite <- (Forall2_length _ _ _ Hdata).
    by apply window_length.
  - eapply Forall2_Forall_r; [exact Hdata|].
    apply Forall_forall. intros conv Hconv d (_ & Hid & Hat & Hct).
    apply slice_elem_of, elem_of_sort_desc, conversations_of_stored in Hconv
      as (c & Hk & Hrow & Hu).
    exists c. rewrite Hid, Hat, Hct.
    repeat split; [done | done | by rewrite Hrow..].
Qed.

Lemma user_conversations_latest_first_witness :
  exists env,
    get_user_conversations 5 1 20 world_chat = (Ok env, world_chat)
    /\ StronglySorted latest_first (Page.data env)
    /\ Py.len (Page.data env) <= 20
    /\ Forall (fun d =>
                 exists c,
                   conversations world_chat !! ConversationDict.id d = Some c
                   /\ 5 ∈ ConvCols.list_of_users c
                   /\ ConversationDict.last_message_at d
                      = ConvCols.last_message_at c
                   /\ ConversationDict.last_message_content d
                      = ConvCols.last_message_content c)
              (Page.data env).
Proof. apply (user_conversations_latest_first world_chat 5 1 20); lia. Defined.

(** ** The pair a conversation is reported with *)

Lemma insert_asc_sorted x l :
  StronglySorted Z.le l -> StronglySorted Z.le (Py.insert_asc x l).
Proof.
  induction 1 as [|y ys Hys IH Hy]; simpl.
  - repeat constructor.
  - destruct (Z.leb_spec x y) as [Hle|Hlt].
    + constructor; [by constructor|].
      constructor; [done|]. eapply Forall_impl; [exact Hy|]. intros z Hz. lia.
    + constructor; [done|]. rewrite insert_asc_Permutation.
      constructor; [lia | done].
Qed.

Lemma sorted_sorted l : StronglySorted Z.le (Py.sorted l).
Proof.
  induction l as [|x l IH]; simpl; [constructor|]. by apply insert_asc_sorted.
Qed.

(** With two users or more, the pair is the two smallest in order. *)
Lemma user_pair_smallest users :
  (2 <= length users)%nat ->
  exists a b,
    user_pair users = Ok (Some a, Some b)
    /\ a <= b /\ a ∈ users /\ b ∈ users
    /\ forall x, x ∈ users -> a <= x.
Proof.
  intros Hlen.
  pose proof (sorted_Permutation users) as Hperm.
  pose proof (sorted_sorted users) as Hsorted.
  destruct users as [|u [|v rest]]; [simpl in Hlen; lia..|].
  unfold user_pair.
  destruct (Py.sorted (u :: v :: rest)) as [|a [|b tl]] eqn:Hs;
    [by apply Permutation_length in Hperm..|].
  rewrite slice_first_two. exists a, b. split; [done|].
  apply StronglySorted_cons in Hsorted as [Ha _].
  repeat split.
  - by apply Forall_cons in Ha as [Hab _].
  - rewrite <- Hperm. apply elem_of_cons. by left.
  - rewrite <- Hperm. apply elem_of_cons. right. apply elem_of_cons. by left.
  - intros x Hx. rewrite <- Hperm in Hx.
    apply elem_of_cons in Hx as [->|Hx]; [lia|].
    rewrite Forall_forall in Ha. by apply Ha.
Qed.

(** X10: [get_conversation] reports a stored conversation of two or more
    users with [user1_id <= user2_id], both among its participants and
    [user1_id] the smallest of them; a conversation of one user with that
    user twice; and one without users with both ids empty.  It never raises
    on a stored conversation. *)
Theorem get_conversation_user_pair
    (w : World) (conversation_id : UUID) (c : ConvCols.t) :
  conversations w !! conversation_id = Some c ->
  exists d,
    get_conversation conversation_id w = (Ok d, w)
    /\ match ConvCols.list_of_users c with
       | [] => ConversationDict.user1_id d = None
               /\ ConversationDict.user2_id d = None
       | [u] => ConversationDict.user1_id d = Some u
                /\ ConversationDict.user2_id d = Some u
       | users =>
           exists a b,
             ConversationDict.user1_id d = Some a
             /\ ConversationDict.user2_id d = Some b
             /\ a <= b /\ a ∈ users /\ b ∈ users
             /\ forall x, x ∈ users -> a <= x
       end.
Proof.
  intros Hc.
  destruct (get_conversation_stored _ _ _ Hc) as (d & Hd & Hpair & _).
  exists d. split; [exact Hd|]. simpl in Hpair.
  destruct (ConvCols.list_of_users c) as [|u [|v rest]] eqn:Hu.
  - by injection Hpair as <- <-.
  - by injection Hpair as <- <-.
  - destruct (user_pair_smallest (u :: v :: rest)) as (a & b & Hab & Hrest);
      [simpl; lia|].
    rewrite Hab in Hpair. injection Hpair as <- <-. by exists a, b.
Qed.

Lemma get_conversation_user_pair_witness :
  exists d,
    get_conversation 100%N world_chat = (Ok d, world_chat)
    /\ exists a b,
         ConversationDict.user1_id d = Some a
         /\ ConversationDict.user2_id d = Some b
         /\ a <= b /\ a ∈ [9; 5] /\ b ∈ [9; 5]
         /\ forall x, x ∈ [9; 5] -> a <= x.
Proof.
  apply (get_conversation_user_pair world_chat 100%N
           (ConvCols.mk [9; 5] (Some 1000%N) (Some 4000%N) (Some "hello"%string))).
  reflexivity.
Defined.

(** ** Creating a conversation and finding it again *)

Lemma no_row_holds_both a b w k c :
  find (holds_both a b) (cassandra_client.rows_of_conversations w) = None ->
  conversations w !! k = Some c ->
  a ∈ ConvCols.list_of_users c -> b ∈ ConvCols.list_of_users c -> False.
Proof.
  intros Hnone Hk Ha Hb.
  assert (ConvCols.row k c ∈ cassandra_client.rows_of_conversations w) as Hin.
  { apply elem_of_rows. by exists k, c. }
  apply list_elem_of_In in Hin.
  pose proof (find_none _ _ Hnone _ Hin) as Hfalse.
  unfold holds_both in Hfalse. simpl in Hfalse.
  rewrite !bool_decide_eq_true_2 in Hfalse by done. done.
Qed.

(** X11: when no stored conversation holds both users,
    [create_or_get_conversation] returns a new dict with the pair as
    (min, max), and [get_conversation] on its id then reports that very
    pair, the creation time as [last_message_at] and no content. *)
Theorem new_conversation_round_trip (w : World) (user_a user_b : Z) :
  find (holds_both user_a user_b) (cassandra_client.rows_of_conversations w)
    = None ->
  exists d w',
    create_or_get_conversation user_a user_b w = (Ok (NewDict d), w')
    /\ NewConversationDict.user1_id d = Z.min user_a user_b
    /\ NewConversationDict.user2_id d = Z.max user_a user_b
    /\ NewConversationDict.last_message_at d = NewConversationDict.created_at d
    /\ get_conversation (NewConversationDict.id d) w' =
         (Ok (ConversationDict.mk
                (NewConversationDict.id d)
                (Some (NewConversationDict.user1_id d))
                (Some (NewConversationDict.user2_id d))
                (Some (NewConversationDict.created_at d))
                (NewConversationDict.last_message_content d)), w')
    /\ NewConversationDict.last_message_content d = None.
Proof.
  intros Hfind.
  destruct (create_or_get_conversation_created _ _ _ Hfind)
    as (w' & Hrun & Hconv & _).
  eexists _, w'. split; [exact Hrun|]. simpl.
  destruct (py_min_max user_a user_b) as [Hmin Hmax].
  repeat split; try done.
  assert (conversations w' !! uuid4_src w (drawn w) =
            Some (ConvCols.mk [user_a; user_b]
                              (Some (utcnow_src w (S (drawn w))))
                              (Some (utcnow_src w (S (drawn w)))) None))
    as Hk by (by rewrite Hconv, lookup_insert_eq).
  destruct (get_conversation_stored _ _ _ Hk) as (d & Hd & Hpair & Hid & Hat & Hct).
  rewrite Hd.
  change (user_pair [user_a; user_b] =
            Ok (ConversationDict.user1_id d, ConversationDict.user2_id d))
    in Hpair.
  rewrite user_pair_two in Hpair. injection Hpair as Hu1 Hu2.
  destruct d. simpl in *.
  by rewrite Hmin, Hmax, <- Hu1, <- Hu2, Hid, Hat, Hct.
Qed.

Lemma new_conversation_round_trip_witness :
  exists d w',
    create_or_get_conversation 7 5 world_chat = (Ok (NewDict d), w')
    /\ NewConversationDict.user1_id d = Z.min 7 5
    /\ NewConversationDict.user2_id d = Z.max 7 5
    /\ NewConversationDict.last_message_at d = NewConversationDict.created_at d
    /\ get_conversation (NewConversationDict.id d) w' =
         (Ok (ConversationDict.mk
                (NewConversationDict.id d)
                (Some (NewConversationDict.user1_id d))
                (Some (NewConversationDict.user2_id d))
                (Some (NewConversationDict.created_at d))
                (NewConversationDict.last_message_content d)), w')
    /\ NewConversationDict.last_message_content d = None.
Proof. apply (new_conversation_round_trip world_chat 7 5). reflexivity. Defined.

(** X12: once [create_or_get_conversation] has run for a pair, running it
    again for the pair, in either order, changes nothing in the world: no
    second conversation is written and neither the clock nor the id source
    is read. *)
Theorem create_or_get_conversation_settles (w : World) (user_a user_b : Z) :
  exists c1 w1,
    create_or_get_conversation user_a user_b w = (Ok c1, w1)
    /\ snd (create_or_get_conversation user_a user_b w1) = w1
    /\ snd (create_or_get_conversation user_b user_a w1) = w1.
Proof.
  destruct (find (holds_both user_a user_b)
                 (cassandra_client.rows_of_conversations w))
    as [conv|] eqn:Hfind.
  - pose proof Hfind as Hrev.
    rewrite (find_pointwise _ (holds_both user_b user_a)) in Hrev
      by apply holds_both_comm.
    exists (StoredRow conv), w.
    rewrite (create_or_get_conversation_found _ _ _ _ Hfind).
    by rewrite (create_or_get_conversation_found _ _ _ _ Hrev).
  - destruct (create_or_get_conversation_created _ _ _ Hfind)
      as (w1 & Hrun & Hconv & _).
    pose proof (search_after_insert_finds user_a user_b w w1 _ _ Hconv
                  (holds_both_pair _ _ _ _ _ _)) as [conv Hconv2].
    pose proof Hconv2 as Hrev.
    rewrite (find_pointwise _ (holds_both user_b user_a)) in Hrev
      by apply holds_both_comm.
    eexists _, w1. split; [exact Hrun|].
    rewrite (create_or_get_conversation_found _ _ _ _ Hconv2).
    by rewrite (create_or_get_conversation_found _ _ _ _ Hrev).
Qed.

(** ** One conversation per pair *)

Lemma create_message_keeps_users
    conversation_id sender_id receiver_id content w :
  exists w',
    snd (create_message conversation_id sender_id receiver_id content w) = w'
    /\ forall k c', conversations w' !! k = Some c' ->
         exists c, conversations w !! k = Some c
                   /\ ConvCols.list_of_users c = ConvCols.list_of_users c'.
Proof.
  destruct (create_message_run conversation_id sender_id receiver_id content w)
    as (w' & -> & Hconv & _).
  exists w'. split; [done|]. intros k c'. rewrite Hconv, lookup_alter.
  destruct (decide (conversation_id = k)) as [<-|Hne]; [|by eexists].
  destruct (conversations w !! conversation_id) as [c|]; [|done].
  intros [= <-]. by exists c.
Qed.

Lemma unique_pairs_world0 : unique_pairs world0.
Proof. intros k1 k2 c1 c2 a b _ Hk1. simpl in Hk1. by rewrite lookup_empty in Hk1. Qed.

Lemma pair_is_pair (a b x y : Z) :
  x ≠ y -> x ∈ [a; b] -> y ∈ [a; b] -> (a ∈ [x; y] /\ b ∈ [x; y]).
Proof.
  intros Hne Hx Hy. rewrite !elem_of_cons, !elem_of_nil in Hx, Hy.
  destruct Hx as [->|[->|[]]], Hy as [->|[->|[]]]; try done;
    split; rewrite !elem_of_cons; auto.
Qed.

Lemma unique_pairs_create_or_get_conversation user1_id user2_id w :
  unique_pairs w ->
  unique_pairs (snd (create_or_get_conversation user1_id user2_id w)).
Proof.
  intros Hw.
  destruct (find (holds_both user1_id user2_id)
                 (cassandra_client.rows_of_conversations w))
    as [conv|] eqn:Hfind.
  - by rewrite (create_or_get_conversation_found _ _ _ _ Hfind).
  - destruct (create_or_get_conversation_created _ _ _ Hfind)
      as (w' & -> & Hconv & _). simpl.
    assert (forall k c x y, x ≠ y ->
              conversations w !! k = Some c ->
              x ∈ ConvCols.list_of_users c -> y ∈ ConvCols.list_of_users c ->
              x ∈ [user1_id; user2_id] -> y ∈ [user1_id; user2_id] -> False)
      as Hclash.
    { intros k c x y Hne Hk Hx Hy Hx' Hy'.
      destruct (pair_is_pair _ _ _ _ Hne Hx' Hy') as [H1 H2].
      apply (no_row_holds_both _ _ _ _ _ Hfind Hk).
      - apply elem_of_cons in H1 as [->|H1]; [done|].
        by apply list_elem_of_singleton in H1 as ->.
      - apply elem_of_cons in H2 as [->|H2]; [done|].
        by apply list_elem_of_singleton in H2 as ->. }
    intros k1 k2 c1 c2 x y Hne. rewrite Hconv.
    intros [[<- <-]|[Hne1 Hk1]]%lookup_insert_Some
           [[<- <-]|[Hne2 Hk2]]%lookup_insert_Some; simpl.
    + done.
    + intros Hx Hy Hx2 Hy2. destruct (Hclash _ _ _ _ Hne Hk2 Hx2 Hy2 Hx Hy).
    + intros Hx Hy Hx2 Hy2. destruct (Hclash _ _ _ _ Hne Hk1 Hx Hy Hx2 Hy2).
    + by apply Hw.
Qed.

Lemma unique_pairs_create_message conversation_id sender_id receiver_id content w :
  unique_pairs w ->
  unique_pairs (snd (create_message conversation_id sender_id receiver_id content w)).
Proof.
  intros Hw.
  destruct (create_message_keeps_users
              conversation_id sender_id receiver_id content w)
    as (w' & -> & Hkeep). simpl.
  intros k1 k2 c1 c2 a b Hne Hk1 Hk2.
  destruct (Hkeep _ _ Hk1) as (c1' & Hc1 & <-).
  destruct (Hkeep _ _ Hk2) as (c2' & Hc2 & <-).
  by eapply Hw.
Qed.

(** X13: if no two stored conversations hold the same pair of distinct
    users, that is still so after [create_or_get_conversation] and after
    [create_message], whatever their arguments. *)
Theorem unique_pairs_kept
    (w : World) (user1_id user2_id : Z)
    (conversation_id : UUID) (sender_id receiver_id : Z) (content : string) :
  unique_pairs w ->
  unique_pairs (snd (create_or_get_conversation user1_id user2_id w))
  /\ unique_pairs
       (snd (create_message conversation_id sender_id receiver_id content w)).
Proof.
  intros Hw. split.
  - by apply unique_pairs_create_or_get_conversation.
  - by apply unique_pairs_create_message.
Qed.

Lemma unique_pairs_world_chat : unique_pairs world_chat.
Proof.
  change world_chat with
    (snd (create_message 100%N 5 9 "hello"
            (snd (create_message 100%N 9 5 "hi"
                    (snd (create_or_get_conversation 9 5 world0)))))).
  do 2 apply unique_pairs_create_message.
  apply unique_pairs_create_or_get_conversation, unique_pairs_world0.
Qed.

Lemma unique_pairs_kept_witness :
  unique_pairs (snd (create_or_get_conversation 5 7 world_chat))
  /\ unique_pairs (snd (create_message 100%N 9 5 "again" world_chat)).
Proof.
  apply (unique_pairs_kept world_chat 5 7 100%N 9 5 "again").
  exact unique_pairs_world_chat.
Defined.

(** ** Sending a message *)

(** Either way [create_or_get_conversation] hands back a conversation whose
    id the controller can read and that is stored with both users in it. *)
Lemma create_or_get_conversation_run user1_id user2_id w :
  exists c w1 cid cols,
    create_or_get_conversation user1_id user2_id w = (Ok c, w1)
    /\ MessageController.conversation_id_of c = Some cid
    /\ conversations w1 !! cid = Some cols
    /\ user1_id ∈ ConvCols.list_of_users cols
    /\ user2_id ∈ ConvCols.list_of_users cols
    /\ messages_by_conversation w1 = messages_by_conversation w
    /\ ((w1 = w /\ exists conv, c = StoredRow conv)
        \/ (cid = uuid4_src w (drawn w)
            /\ conversations w1 =
                 <[cid := ConvCols.mk [user1_id; user2_id]
                            (Some (utcnow_src w (S (drawn w))))
                            (Some (utcnow_src w (S (drawn w)))) None]>
                   (conversations w))).
Proof.
  destruct (find (holds_both user1_id user2_id)
                 (cassandra_client.rows_of_conversations w))
    as [conv|] eqn:Hfind.
  - rewrite (create_or_get_conversation_found _ _ _ _ Hfind).
    apply find_some in Hfind as [Hin Hboth].
    apply list_elem_of_In, elem_of_rows in Hin as (k & cols & Hk & ->).
    unfold holds_both in Hboth. simpl in Hboth.
    apply andb_prop in Hboth as [Ha%bool_decide_eq_true Hb%bool_decide_eq_true].
    eexists _, w, k, cols. repeat split; try done. left. split; [done|].
    by eexists.
  - destruct (create_or_get_conversation_created _ _ _ Hfind)
      as (w1 & -> & Hconv & Hmsgs).
    eexists _, w1, _, _. split; [done|]. split; [done|].
    split; [by rewrite Hconv, lookup_insert_eq|]. simpl.
    split; [apply elem_of_cons; by left|].
    split; [apply elem_of_cons; right; apply elem_of_cons; by left|].
    split; [done|]. right. done.
Qed.

Lemma send_message_run sender_id receiver_id content w :
  exists c w1 cid cols msg w',
    create_or_get_conversation sender_id receiver_id w = (Ok c, w1)
    /\ MessageController.conversation_id_of c = Some cid
    /\ conversations w1 !! cid = Some cols
    /\ sender_id ∈ ConvCols.list_of_users cols
    /\ receiver_id ∈ ConvCols.list_of_users cols
    /\ create_message cid sender_id receiver_id content w1 = (Ok msg, w')
    /\ message_controller.send_message
         (MessageCreate.mk sender_id receiver_id content) w = (Returned msg, w').
Proof.
  destruct (create_or_get_conversation_run sender_id receiver_id w)
    as (c & w1 & cid & cols & Hc & Hid & Hk & Hs & Hr & _).
  destruct (create_message_run cid sender_id receiver_id content w1)
    as (w' & Hrun & _).
  eexists c, w1, cid, cols, _, w'. repeat split; try done.
  unfold message_controller.send_message, try_except.
  cbn [MessageCreate.sender_id MessageCreate.receiver_id MessageCreate.content].
  unfold bind at 1. rewrite Hc, Hid.
  unfold bind at 1. by rewrite Hrun.
Qed.

(** X14: whenever [send_message] returns a message, the message carries
    the sender, receiver and content it was given, is appended to the stored
    messages, and sits in a stored conversation that has sender and receiver
    among its participants and now shows the message as its last one. *)
Theorem send_message_delivers
    (w : World) (message_data : MessageCreate.t)
    (msg : MessageResponse.t) (w' : World) :
  message_controller.send_message message_data w = (Returned msg, w') ->
  MessageResponse.sender_id msg = MessageCreate.sender_id message_data
  /\ MessageResponse.receiver_id msg = MessageCreate.receiver_id message_data
  /\ MessageResponse.content msg = MessageCreate.content message_data
  /\ (exists row, msg = response_of_row row
                  /\ row ∈ messages_by_conversation w')
  /\ exists c,
       conversations w' !! MessageResponse.conversation_id msg = Some c
       /\ MessageCreate.sender_id message_data ∈ ConvCols.list_of_users c
       /\ MessageCreate.receiver_id message_data ∈ ConvCols.list_of_users c
       /\ ConvCols.last_message_content c
          = Some (MessageCreate.content message_data)
       /\ ConvCols.last_message_at c = Some (MessageResponse.created_at msg).
Proof.
  destruct message_data as [s r content]. simpl. intros Hreturned.
  destruct (send_message_run s r content w)
    as (c & w1 & cid & cols & msg0 & w0 & _ & _ & Hk & Hs & Hr & Hmsg & Hsend).
  rewrite Hsend in Hreturned. injection Hreturned as <- <-.
  destruct (create_message_run cid s r content w1)
    as (w'' & Hrun & Hconv & Hmsgs).
  rewrite Hrun in Hmsg. injection Hmsg as <- <-. simpl. repeat split.
  - eexists (MsgRow.mk cid _ _ s r content). split; [reflexivity|].
    rewrite Hmsgs. apply elem_of_app. right. by apply list_elem_of_singleton.
  - eexists. split; [by rewrite Hconv, lookup_alter_eq, Hk|]. done.
Qed.

Lemma send_message_delivers_witness :
  MessageResponse.sender_id (MessageResponse.mk 109%N 8000%N 7 5 "hi" 106%N) = 7
  /\ MessageResponse.receiver_id
       (MessageResponse.mk 109%N 8000%N 7 5 "hi" 106%N) = 5
  /\ MessageResponse.content (MessageResponse.mk 109%N 8000%N 7 5 "hi" 106%N)
     = "hi"%string
  /\ (exists row,
        MessageResponse.mk 109%N 8000%N 7 5 "hi" 106%N = response_of_row row
        /\ row ∈ messages_by_conversation
                   (snd (message_controller.send_message
                           (MessageCreate.mk 7 5 "hi") world_chat)))
  /\ exists c,
       conversations
         (snd (message_controller.send_message
                 (MessageCreate.mk 7 5 "hi") world_chat)) !! 106%N = Some c
       /\ 7 ∈ ConvCols.list_of_users c
       /\ 5 ∈ ConvCols.list_of_users c
       /\ ConvCols.last_message_content c = Some "hi"%string
       /\ ConvCols.last_message_at c = Some 8000%N.
Proof.
  apply (send_message_delivers world_chat (MessageCreate.mk 7 5 "hi")
           (MessageResponse.mk 109%N 8000%N 7 5 "hi" 106%N)
           (snd (message_controller.send_message
                   (MessageCreate.mk 7 5 "hi") world_chat))).
  reflexivity.
Defined.

(** X15: a message a user sends to himself, when some stored conversation
    already contains him, is put into the first such conversation, whoever
    its other participant is. *)
Theorem send_message_to_self
    (w : World) (user_id : Z) (content : string)
    (conv : ConvRow.t) (rest : list ConvRow.t) :
  conversations_of user_id w = conv :: rest ->
  exists msg w',
    message_controller.send_message
      (MessageCreate.mk user_id user_id content) w = (Returned msg, w')
    /\ MessageResponse.conversation_id msg = ConvRow.conversation_id conv
    /\ MessageResponse.sender_id msg = user_id
    /\ MessageResponse.receiver_id msg = user_id.
Proof.
  intros Hof.
  assert (find (holds_both user_id user_id)
               (cassandra_client.rows_of_conversations w) = Some conv) as Hfind.
  { rewrite <- search_holds_both, Hof. simpl.
    assert (conv ∈ conversations_of user_id w) as Hin
      by (rewrite Hof; apply elem_of_cons; by left).
    apply list_elem_of_filter in Hin as [Hu _].
    by rewrite bool_decide_eq_true_2. }
  destruct (send_message_run user_id user_id content w)
    as (c & w1 & cid & cols & msg & w' & Hc & Hid & _ & _ & _ & Hmsg & Hsend).
  rewrite (create_or_get_conversation_found _ _ _ _ Hfind) in Hc.
  injection Hc as <- <-. injection Hid as <-.
  destruct (create_message_run (ConvRow.conversation_id conv)
              user_id user_id content w) as (w'' & Hrun & _).
  rewrite Hrun in Hmsg. injection Hmsg as <- <-.
  by eexists _, w''.
Qed.

Lemma send_message_to_self_witness :
  exists msg w',
    message_controller.send_message
      (MessageCreate.mk 9 9 "note to self") world_chat = (Returned msg, w')
    /\ MessageResponse.conversation_id msg =
         ConvRow.conversation_id
           (ConvRow.mk 100%N [9; 5] (Some 1000%N) (Some 4000%N)
                       (Some "hello"%string))
    /\ MessageResponse.sender_id msg = 9
    /\ MessageResponse.receiver_id msg = 9.
Proof.
  apply (send_message_to_self world_chat 9 "note to self"
           (ConvRow.mk 100%N [9; 5] (Some 1000%N) (Some 4000%N)
                       (Some "hello"%string)) []).
  reflexivity.
Defined.

Lemma send_message_world sender_id receiver_id content w :
  exists cid cols,
    snd (message_controller.send_message
           (MessageCreate.mk sender_id receiver_id content) w)
    = snd (create_message cid sender_id receiver_id content
             (snd (create_or_get_conversation sender_id receiver_id w)))
    /\ conversations (snd (create_or_get_conversation sender_id receiver_id w))
         !! cid = Some cols
    /\ sender_id ∈ ConvCols.list_of_users cols
    /\ receiver_id ∈ ConvCols.list_of_users cols
    /\ exists msg,
         fst (message_controller.send_message
                (MessageCreate.mk sender_id receiver_id content) w)
         = Returned msg
         /\ MessageResponse.conversation_id msg = cid.
Proof.
  destruct (send_message_run sender_id receiver_id content w)
    as (c & w1 & cid & cols & msg & w' & Hc & _ & Hk & Hs & Hr & Hmsg & Hsend).
  exists cid, cols. rewrite Hsend, Hc. cbn [snd fst]. rewrite Hmsg. cbn [snd].
  repeat split; try done.
  destruct (create_message_run cid sender_id receiver_id content w1)
    as (w'' & Hrun & _).
  rewrite Hrun in Hmsg. injection Hmsg as <- _. by eexists.
Qed.

Lemma unique_pairs_send_message sender_id receiver_id content w :
  unique_pairs w ->
  unique_pairs (snd (message_controller.send_message
                       (MessageCreate.mk sender_id receiver_id content) w)).
Proof.
  intros Hw.
  destruct (send_message_world sender_id receiver_id content w)
    as (cid & cols & -> & _).
  by apply unique_pairs_create_message, unique_pairs_create_or_get_conversation.
Qed.

(** A stored conversation survives [create_or_get_conversation], unless the
    new conversation is written under its very id. *)
Lemma create_or_get_conversation_keeps user1_id user2_id w c w1 k cols :
  create_or_get_conversation user1_id user2_id w = (Ok c, w1) ->
  conversations w !! k = Some cols ->
  MessageController.conversation_id_of c = Some k
  \/ conversations w1 !! k = Some cols.
Proof.
  intros Hrun Hk.
  destruct (create_or_get_conversation_run user1_id user2_id w)
    as (c' & w1' & cid & cols' & Hc & Hid & _ & _ & _ & _ & Hcase).
  rewrite Hrun in Hc. injection Hc as <- <-.
  destruct Hcase as [[-> _]|[_ Hconv]]; [by right|].
  destruct (decide (cid = k)) as [<-|Hne]; [by left|].
  right. by rewrite Hconv, lookup_insert_ne.
Qed.

Lemma send_message_stored sender_id receiver_id content w :
  exists msg w' c,
    message_controller.send_message
      (MessageCreate.mk sender_id receiver_id content) w = (Returned msg, w')
    /\ conversations w' !! MessageResponse.conversation_id msg = Some c
    /\ sender_id ∈ ConvCols.list_of_users c
    /\ receiver_id ∈ ConvCols.list_of_users c.
Proof.
  destruct (send_message_run sender_id receiver_id content w)
    as (c & w1 & cid & cols & msg & w' & _ & _ & Hk & Hs & Hr & Hmsg & Hsend).
  destruct (create_message_run cid sender_id receiver_id content w1)
    as (w'' & Hrun & Hconv & _).
  rewrite Hrun in Hmsg. injection Hmsg as <- <-.
  eexists _, w'', _. split; [exact Hsend|]. simpl.
  split; [by rewrite Hconv, lookup_alter_eq, Hk|]. done.
Qed.

(** X16: in a store where no two conversations hold the same pair, a
    message from one user to another and the answer sent back the other way
    land in the same conversation. *)
Theorem reply_joins_conversation
    (w : World) (user_a user_b : Z) (content reply : string) :
  unique_pairs w -> user_a ≠ user_b ->
  exists m1 w1 m2 w2,
    message_controller.send_message
      (MessageCreate.mk user_a user_b content) w = (Returned m1, w1)
    /\ message_controller.send_message
         (MessageCreate.mk user_b user_a reply) w1 = (Returned m2, w2)
    /\ MessageResponse.conversation_id m2 = MessageResponse.conversation_id m1.
Proof.
  intros Hw Hne.
  pose proof (unique_pairs_send_message user_a user_b content w Hw) as Hw1.
  destruct (send_message_stored user_a user_b content w)
    as (m1 & w1 & c1 & Hsend1 & Hc1 & Ha1 & Hb1).
  rewrite Hsend1 in Hw1. simpl in Hw1.
  destruct (send_message_run user_b user_a reply w1)
    as (c & w1' & cid & cols & m2 & w2 & Hc & Hid & Hk & Hb2 & Ha2 & Hmsg & Hsend2).
  exists m1, w1, m2, w2. split; [done|]. split; [done|].
  destruct (create_message_run cid user_b user_a reply w1') as (w2' & Hrun & _).
  rewrite Hrun in Hmsg. injection Hmsg as <- <-. simpl.
  destruct (create_or_get_conversation_keeps _ _ _ _ _ _ _ Hc Hc1)
    as [Hsame|Hkept]; [congruence|].
  pose proof (unique_pairs_create_or_get_conversation user_b user_a w1 Hw1)
    as Hw1'.
  rewrite Hc in Hw1'. simpl in Hw1'.
  by eapply (Hw1' cid _ cols c1 user_a user_b).
Qed.

Lemma reply_joins_conversation_witness :
  exists m1 w1 m2 w2,
    message_controller.send_message
      (MessageCreate.mk 7 5 "hi") world_chat = (Returned m1, w1)
    /\ message_controller.send_message
         (MessageCreate.mk 5 7 "hello") w1 = (Returned m2, w2)
    /\ MessageResponse.conversation_id m2 = MessageResponse.conversation_id m1.
Proof.
  apply (reply_joins_conversation world_chat 7 5 "hi" "hello").
  - exact unique_pairs_world_chat.
  - lia.
Defined.

(** ** Every message has its conversation *)

Lemma messages_owned_create_or_get_conversation user1_id user2_id w :
  messages_owned w -> next_id_fresh w ->
  messages_owned (snd (create_or_get_conversation user1_id user2_id w)).
Proof.
  intros Hw Hfresh.
  destruct (create_or_get_conversation_run user1_id user2_id w)
    as (c & w1 & cid & cols & -> & _ & _ & _ & _ & Hmsgs & Hcase). simpl.
  destruct Hcase as [[-> _]|[-> Hconv]]; [done|].
  intros m Hm. rewrite Hmsgs in Hm.
  destruct (Hw m Hm) as (c0 & Hc0 & Hs & Hr).
  exists c0. split; [|done]. rewrite Hconv, lookup_insert_ne; [done|].
  intros Heq. unfold next_id_fresh in Hfresh. congruence.
Qed.

Lemma messages_owned_create_message
    conversation_id sender_id receiver_id content w cols :
  messages_owned w ->
  conversations w !! conversation_id = Some cols ->
  sender_id ∈ ConvCols.list_of_users cols ->
  receiver_id ∈ ConvCols.list_of_users cols ->
  messages_owned
    (snd (create_message conversation_id sender_id receiver_id content w)).
Proof.
  intros Hw Hk Hs Hr.
  destruct (create_message_run conversation_id sender_id receiver_id content w)
    as (w' & -> & Hconv & Hmsgs). simpl.
  intros m. rewrite Hmsgs, Hconv.
  intros [Hm|Hm%list_elem_of_singleton]%elem_of_app.
  - destruct (Hw m Hm) as (c0 & Hc0 & Hs0 & Hr0).
    rewrite lookup_alter.
    destruct (decide (conversation_id = MsgRow.conversation_id m)) as [Heq|Hne].
    + rewrite Heq, Hc0. simpl. by eexists.
    + by exists c0.
  - subst m. simpl. rewrite lookup_alter_eq, Hk. simpl. by eexists.
Qed.

Lemma messages_owned_world_chat : messages_owned world_chat.
Proof.
  intros m Hm.
  assert (m = MsgRow.mk 100%N 2000%N 103%N 9 5 "hi"
          \/ m = MsgRow.mk 100%N 4000%N 105%N 5 9 "hello") as [->| ->].
  { change (messages_by_conversation world_chat)
      with [MsgRow.mk 100%N 2000%N 103%N 9 5 "hi";
            MsgRow.mk 100%N 4000%N 105%N 5 9 "hello"] in Hm.
    rewrite !elem_of_cons, elem_of_nil in Hm. tauto. }
  - exists (ConvCols.mk [9; 5] (Some 1000%N) (Some 4000%N) (Some "hello"%string)).
    split; [reflexivity|]. simpl. rewrite !elem_of_cons. tauto.
  - exists (ConvCols.mk [9; 5] (Some 1000%N) (Some 4000%N) (Some "hello"%string)).
    split; [reflexivity|]. simpl. rewrite !elem_of_cons. tauto.
Qed.

(** X17: if every stored message belongs to a stored conversation that has
    its sender and receiver among the participants, and the next id of the
    source is not yet a conversation's, then the same holds after
    [send_message]. *)
Theorem send_message_keeps_messages_owned
    (w : World) (message_data : MessageCreate.t) :
  messages_owned w -> next_id_fresh w ->
  messages_owned (snd (message_controller.send_message message_data w)).
Proof.
  intros Hw Hfresh. destruct message_data as [s r content].
  destruct (send_message_world s r content w)
    as (cid & cols & -> & Hk & Hs & Hr & _).
  eapply messages_owned_create_message; [|exact Hk|exact Hs|exact Hr].
  by apply messages_owned_create_or_get_conversation.
Qed.

Lemma send_message_keeps_messages_owned_witness :
  messages_owned
    (snd (message_controller.send_message
            (MessageCreate.mk 7 5 "hi") world_chat)).
Proof.
  apply (send_message_keeps_messages_owned world_chat (MessageCreate.mk 7 5 "hi")).
  - exact messages_owned_world_chat.
  - reflexivity.
Defined.

(** ** The conversation controller *)

(** X18: whatever the response schema does, the controller's
    [get_conversation] answers an id that is not stored with
    [HTTPException] of status 500 and detail "Conversation not found", and
    an id that is stored with what the schema makes of the dict of
    [ConversationModel.get_conversation], or with status 500 and the
    schema's message when the schema refuses it; the world is not changed. *)
Theorem controller_get_conversation
    (R : Type) (ConversationResponse : ConversationDict.t -> result R)
    (w : World) (conversation_id : UUID) :
  (conversations w !! conversation_id = None ->
   conversation_controller.get_conversation ConversationResponse
     conversation_id w
   = (HTTPException 500 "Conversation not found", w))
  /\ (forall c, conversations w !! conversation_id = Some c ->
        exists d,
          ConversationModel.get_conversation conversation_id w = (Ok d, w)
          /\ conversation_controller.get_conversation ConversationResponse
               conversation_id w
             = (match ConversationResponse d with
                | Ok r => Returned r
                | Raise e => HTTPException 500 (str e)
                end, w)).
Proof.
  split.
  - intros Hnone.
    unfold conversation_controller.get_conversation, try_except, bind.
    by rewrite (get_conversation_missing _ _ Hnone).
  - intros c Hc.
    destruct (get_conversation_stored _ _ _ Hc) as (d & Hd & _).
    exists d. split; [exact Hd|].
    unfold conversation_controller.get_conversation, try_except, bind, lift.
    rewrite Hd. by destruct (ConversationResponse d).
Qed.

(** ** A new conversation in the lists of its users *)

Lemma Forall2_elem_of_l {A B} (R : A -> B -> Prop) l k x :
  Forall2 R l k -> x ∈ l -> exists y, y ∈ k /\ R x y.
Proof.
  induction 1 as [|x' y' l k Hxy HR IH]; intros Hx.
  - by apply elem_of_nil in Hx.
  - apply elem_of_cons in Hx as [->|Hx].
    + exists y'. split; [apply elem_of_cons; by left | done].
    + destruct (IH Hx) as (y & Hy & Hxy'). exists y.
      split; [apply elem_of_cons; by right | done].
Qed.

Lemma stored_conversation_listed user_id limit w k c :
  conversations w !! k = Some c ->
  user_id ∈ ConvCols.list_of_users c ->
  Py.len (conversations_of user_id w) <= limit ->
  exists env item,
    get_user_conversations user_id 1 limit w = (Ok env, w)
    /\ item ∈ Page.data env
    /\ dict_of (ConvCols.row k c) item.
Proof.
  intros Hk Hu Hle.
  destruct (get_user_conversations_run user_id 1 limit w)
    as (conv_list & Hrun & Hdata).
  rewrite window_all in Hdata by (by rewrite len_sort_reverse).
  assert (ConvCols.row k c ∈ Py.sort_reverse sort_key (conversations_of user_id w))
    as Hin.
  { apply elem_of_sort_desc, list_elem_of_filter. split; [done|].
    apply elem_of_rows. by exists k, c. }
  destruct (Forall2_elem_of_l _ _ _ _ Hdata Hin) as (item & Hitem & Hof).
  by eexists _, item.
Qed.

(** X19: a conversation that [create_or_get_conversation] had to create is
    found on the first page of [get_user_conversations] of either user, when
    the page is long enough for all the user's conversations, under its new
    id and with the pair as (min, max). *)
Theorem new_conversation_is_listed
    (w : World) (user_a user_b : Z) (limit : Z) :
  find (holds_both user_a user_b) (cassandra_client.rows_of_conversations w)
    = None ->
  exists d w',
    create_or_get_conversation user_a user_b w = (Ok (NewDict d), w')
    /\ forall user_id,
         user_id = user_a \/ user_id = user_b ->
         Py.len (conversations_of user_id w') <= limit ->
         exists env item,
           get_user_conversations user_id 1 limit w' = (Ok env, w')
           /\ item ∈ Page.data env
           /\ ConversationDict.id item = NewConversationDict.id d
           /\ ConversationDict.user1_id item = Some (Z.min user_a user_b)
           /\ ConversationDict.user2_id item = Some (Z.max user_a user_b).
Proof.
  intros Hfind.
  destruct (create_or_get_conversation_created _ _ _ Hfind)
    as (w' & Hrun & Hconv & _).
  eexists _, w'. split; [exact Hrun|]. simpl.
  intros user_id Hu Hle.
  assert (conversations w' !! uuid4_src w (drawn w) =
            Some (ConvCols.mk [user_a; user_b]
                              (Some (utcnow_src w (S (drawn w))))
                              (Some (utcnow_src w (S (drawn w)))) None))
    as Hk by (by rewrite Hconv, lookup_insert_eq).
  destruct (stored_conversation_listed user_id limit w' _ _ Hk)
    as (env & item & Henv & Hitem & Hpair & Hid & _); [|done|].
  { simpl. rewrite !elem_of_cons. tauto. }
  exists env, item. split; [done|]. split; [done|]. split; [done|].
  change (user_pair [user_a; user_b] =
            Ok (ConversationDict.user1_id item, ConversationDict.user2_id item))
    in Hpair.
  rewrite user_pair_two in Hpair. by injection Hpair as <- <-.
Qed.

Lemma new_conversation_is_listed_witness :
  exists d w',
    create_or_get_conversation 7 5 world_chat = (Ok (NewDict d), w')
    /\ forall user_id,
         user_id = 7 \/ user_id = 5 ->
         Py.len (conversations_of user_id w') <= 20 ->
         exists env item,
           get_user_conversations user_id 1 20 w' = (Ok env, w')
           /\ item ∈ Page.data env
           /\ ConversationDict.id item = NewConversationDict.id d
           /\ ConversationDict.user1_id item = Some (Z.min 7 5)
           /\ ConversationDict.user2_id item = Some (Z.max 7 5).
Proof. apply (new_conversation_is_listed world_chat 7 5 20). reflexivity. Defined.

(** ** The newest message heads the listing *)

Lemma sort_desc_newest {A} (key : A -> N) (l : list A) (x : A) :
  Forall (fun y => (key y < key x)%N) l ->
  sort_desc key (l ++ [x]) = x :: sort_desc key l.
Proof.
  induction 1 as [|y l Hy _ IH]; [done|]. simpl. rewrite IH. simpl.
  by destruct (N.leb_spec (key x) (key y)); [lia|].
Qed.

Lemma window_head {A} (x : A) (l : list A) limit :
  0 < limit -> exists rest, window (x :: l) 1 limit = x :: rest.
Proof.
  intros Hl. rewrite window_take_drop by lia.
  replace ((1 - 1) * limit) with 0 by lia. simpl.
  destruct (Z.to_nat limit) as [|n] eqn:Hn; [lia|]. simpl. by eexists.
Qed.

(** X20: when the clock reads later than every stored message of the
    conversation, the message [create_message] appends is the first item of
    the first page of [get_conversation_messages], for any positive limit. *)
Theorem newest_message_heads_listing
    (w : World) (conversation_id : UUID) (sender_id receiver_id : Z)
    (content : string) (limit : Z) :
  Forall (fun r => (MsgRow.sent_at r < utcnow_src w (drawn w))%N)
         (messages_of conversation_id w) ->
  0 < limit ->
  exists msg w' rest,
    create_message conversation_id sender_id receiver_id content w = (Ok msg, w')
    /\ listed (get_conversation_messages conversation_id 1 limit w')
       = msg :: rest.
Proof.
  intros Hlater Hl.
  destruct (messages_of_create_message
              conversation_id sender_id receiver_id content w)
    as (msg & w' & Hrun & Hmsg & (row & Hrow & Hof) & _).
  assert (MsgRow.sent_at row = utcnow_src w (drawn w)) as Hat.
  { apply (f_equal MessageResponse.created_at) in Hrow.
    rewrite Hmsg in Hrow. simpl in Hrow. done. }
  rewrite <- Hat in Hlater.
  assert (exists rest,
            listed (get_conversation_messages conversation_id 1 limit w')
            = msg :: rest) as [rest Hrest].
  { rewrite listed_get_conversation_messages.
    unfold cassandra_client.clustered.
    rewrite Hof, (sort_desc_newest _ _ _ Hlater).
    destruct (window_head row (sort_desc MsgRow.sent_at
                                 (messages_of conversation_id w)) limit Hl)
      as [rest ->].
    exists (response_of_row <$> rest). by rewrite fmap_cons, Hrow. }
  by exists msg, w', rest.
Qed.

Lemma newest_message_heads_listing_witness :
  exists msg w' rest,
    create_message 100%N 9 5 "again" world_chat = (Ok msg, w')
    /\ listed (get_conversation_messages 100%N 1 1 w') = msg :: rest.
Proof.
  apply (newest_message_heads_listing world_chat 100%N 9 5 "again" 1).
  - vm_compute. repeat constructor.
  - lia.
Defined.

(** ** The listing controllers *)

(** X21: the three listing methods of the controllers never fail on account
    of the models, whatever [page] and [limit] are: each hands the envelope
    of its model to the response schema and answers with what the schema
    returns, or with status 500 and the schema's message when the schema
    refuses the envelope; the world is not changed. *)
Theorem listing_controllers_pass_through
    (R P : Type)
    (PaginatedMessageResponse : Page.t MessageResponse.t -> result R)
    (PaginatedConversationResponse : Page.t ConversationDict.t -> result P)
    (w : World) (conversation_id : UUID) (before_timestamp : datetime)
    (user_id : Z) (page limit : Z) :
  (exists env,
      MessageModel.get_conversation_messages conversation_id page limit w
      = (Ok env, w)
      /\ message_controller.get_conversation_messages
           PaginatedMessageResponse conversation_id page limit w
         = (match PaginatedMessageResponse env with
            | Ok r => Returned r
            | Raise e => HTTPException 500 (str e)
            end, w))
  /\ (exists env,
      MessageModel.get_messages_before_timestamp
        conversation_id before_timestamp page limit w = (Ok env, w)
      /\ message_controller.get_messages_before_timestamp
           PaginatedMessageResponse conversation_id before_timestamp
           page limit w
         = (match PaginatedMessageResponse env with
            | Ok r => Returned r
            | Raise e => HTTPException 500 (str e)
            end, w))
  /\ (exists env,
      ConversationModel.get_user_conversations user_id page limit w
      = (Ok env, w)
      /\ conversation_controller.get_user_conversations
           PaginatedConversationResponse user_id page limit w
         = (match PaginatedConversationResponse env with
            | Ok r => Returned r
            | Raise e => HTTPException 500 (str e)
            end, w)).
Proof.
  split; [|split].
  - eexists. split; [apply get_conversation_messages_run|].
    unfold message_controller.get_conversation_messages, try_except,
      bind, lift.
    rewrite get_conversation_messages_run.
    by destruct (PaginatedMessageResponse _).
  - eexists. split; [apply get_messages_before_timestamp_run|].
    unfold message_controller.get_messages_before_timestamp, try_except,
      bind, lift.
    rewrite get_messages_before_timestamp_run.
    by destruct (PaginatedMessageResponse _).
  - destruct (get_user_conversations_run user_id page limit w)
      as (conv_list & Hrun & _).
    eexists. split; [exact Hrun|].
    unfold conversation_controller.get_user_conversations, try_except,
      bind, lift.
    rewrite Hrun. by destruct (PaginatedConversationResponse _).
Qed.
